(** * Ollama-Teams: the agent memory log, the action dispatcher and the agent loop

  A shallow embedding of [src/main.py]: [AIChatHistory] (the bounded
  message log), [BaseAgent.execute_action] / [map_parameters] (dispatch
  of a tool call with one argument-renaming retry), [BaseAgent.think],
  [act], [learn] and [run] (the agent loop), and two handlers,
  [DeveloperAgent.write_code] and
  [EntrepreneurAgent.conduct_market_research].

  Python objects are modelled with explicit state passing; a Python
  exception is the [Raise] outcome of a computation. *)

From Stdlib Require Import ZArith String Ascii List Lia.
From stdpp Require Import base option list strings gmap pretty.

Local Open Scope string_scope.
Local Open Scope list_scope.
Local Open Scope Z_scope.

(** ** The memory log: [class AIChatHistory] *)

Module MemoryLog.

(** One entry of [self.messages]: the dict [{"role": role, "content": content}]. *)
Record Message := mkMessage { role : string; content : string }.

(** The object state: [self.messages] and [self.max_messages] (a Python [int]). *)
Record AIChatHistory := mkHistory {
  messages : list Message;
  max_messages : Z
}.

(** [__init__(self, max_messages=100)]. *)
Definition init (max_messages : Z) : AIChatHistory :=
  {| messages := []; max_messages := max_messages |}.

Definition default_max_messages : Z := 100.

(** [list.pop(0)]: drops the first element.  It raises [IndexError] on
    an empty list; [add_message] only calls it right after an append,
    see [pop0_after_append]. *)
Definition pop0 {A} (l : list A) : list A :=
  match l with
  | [] => []
  | _ :: l' => l'
  end.

(** [add_message(self, role, content)]:
    append, then [pop(0)] when [len(self.messages) > self.max_messages]. *)
Definition add_message (h : AIChatHistory) (role content : string) : AIChatHistory :=
  let appended := messages h ++ [mkMessage role content] in
  if Z.of_nat (length appended) >? max_messages h
  then {| messages := pop0 appended; max_messages := max_messages h |}
  else {| messages := appended; max_messages := max_messages h |}.

(** The Python slice [l[start:]] for an integer [start]: a negative
    [start] counts from the end and is clamped at 0, a non-negative one
    is clamped at [len(l)]. *)
Definition slice_from {A} (start : Z) (l : list A) : list A :=
  let len := Z.of_nat (length l) in
  let lo := if start <? 0 then Z.max (start + len) 0 else Z.min start len in
  drop (Z.to_nat lo) l.

(** [get_context(self, last_n=5)]: [return self.messages[-last_n:]].
    The log itself is not an output: the method leaves [self] as it is. *)
Definition get_context (h : AIChatHistory) (last_n : Z) : list Message :=
  slice_from (- last_n) (messages h).

(** A run of [add_message] calls, oldest call first. *)
Definition add_messages (h : AIChatHistory) (calls : list (string * string)) : AIChatHistory :=
  fold_left (fun h c => add_message h (fst c) (snd c)) calls h.

(** The entries a run of calls appends, in call order. *)
Definition entries (calls : list (string * string)) : list Message :=
  map (fun c => mkMessage (fst c) (snd c)) calls.

End MemoryLog.

(** ** Python values, exceptions and the dict operations the dispatcher uses *)

Module Py.

(** The values a tool call can carry: what [json] decoding yields
    ([float] left out).  A [dict] keeps its insertion order, its keys
    are strings. *)
#[warnings="-register-all"]
Inductive pyval :=
| PNone
| PBool (b : bool)
| PInt (z : Z)
| PStr (s : string)
| PList (items : list pyval)
| PDict (items : list (string * pyval)).

Abbreviation pydict := (list (string * pyval)).

(** [type(v).__name__], as it shows in the interpreter's error messages. *)
Definition type_name (v : pyval) : string :=
  match v with
  | PNone => "NoneType"
  | PBool _ => "bool"
  | PInt _ => "int"
  | PStr _ => "str"
  | PList _ => "list"
  | PDict _ => "dict"
  end.

(** Lists and dicts have no [__hash__]. *)
Definition hashable (v : pyval) : bool :=
  match v with
  | PList _ | PDict _ => false
  | _ => true
  end.

(** Keys of a dict whose keys are arbitrary hashable values: [True] and
    [1] (and [False] and [0]) are the same key. *)
Inductive pykey := KNone | KInt (z : Z) | KStr (s : string).

#[global] Instance pykey_eq_dec : EqDecision pykey.
Proof. solve_decision. Defined.

Definition key_of (v : pyval) : option pykey :=
  match v with
  | PNone => Some KNone
  | PBool b => Some (KInt (if b then 1 else 0))
  | PInt z => Some (KInt z)
  | PStr s => Some (KStr s)
  | PList _ | PDict _ => None
  end.

(** *** [repr] and [str] *)

Definition squote : ascii := ascii_of_nat 39.
Definition dquote : ascii := ascii_of_nat 34.
Definition backslash : ascii := ascii_of_nat 92.

Definition has_char (c : ascii) (s : string) : bool :=
  existsb (Ascii.eqb c) (list_ascii_of_string s).

Definition hex_digit (n : nat) : ascii :=
  nth n (list_ascii_of_string "0123456789abcdef") "0"%char.

(** One character of [repr(s)] between quotes [q]; exact on ASCII, a
    byte above 127 is left as it is (as [repr] does for printable
    characters). *)
Definition repr_char (q c : ascii) : string :=
  let n := nat_of_ascii c in
  if Ascii.eqb c backslash then String backslash (String backslash EmptyString)
  else if Ascii.eqb c q then String backslash (String q EmptyString)
  else if Nat.eqb n 10 then String backslash "n"
  else if Nat.eqb n 13 then String backslash "r"
  else if Nat.eqb n 9 then String backslash "t"
  else if (Nat.ltb n 32 || Nat.eqb n 127)%bool
       then String backslash
              (String "x" (String (hex_digit (n / 16)) (String (hex_digit (n mod 16)) EmptyString)))
  else String c EmptyString.

(** [repr] of a [str]: single quotes, unless the text has a single
    quote and no double quote. *)
Definition repr_str (s : string) : string :=
  let q := if (has_char squote s && negb (has_char dquote s))%bool then dquote else squote in
  String q (String.concat "" (map (repr_char q) (list_ascii_of_string s)) +:+ String q EmptyString).

Fixpoint py_repr (v : pyval) : string :=
  match v with
  | PNone => "None"
  | PBool true => "True"
  | PBool false => "False"
  | PInt z => pretty z
  | PStr s => repr_str s
  | PList items => "[" +:+ String.concat ", " (map py_repr items) +:+ "]"
  | PDict items =>
      "{" +:+ String.concat ", "
                (map (fun kv => repr_str (fst kv) +:+ ": " +:+ py_repr (snd kv)) items)
          +:+ "}"
  end.

(** [str(v)], what an f-string field [{v}] prints. *)
Definition py_str (v : pyval) : string :=
  match v with
  | PStr s => s
  | _ => py_repr v
  end.

(** [json.dumps(v)] with its default options, exact on ASCII text (a
    byte above 127 is left as it is, where [json.dumps] writes a
    [\u] escape of the character). *)
Definition json_char (c : ascii) : string :=
  let n := nat_of_ascii c in
  if Ascii.eqb c dquote then String backslash (String dquote EmptyString)
  else if Ascii.eqb c backslash then String backslash (String backslash EmptyString)
  else if Nat.eqb n 10 then String backslash "n"
  else if Nat.eqb n 13 then String backslash "r"
  else if Nat.eqb n 9 then String backslash "t"
  else if Nat.eqb n 8 then String backslash "b"
  else if Nat.eqb n 12 then String backslash "f"
  else if (Nat.ltb n 32 || Nat.eqb n 127)%bool
       then String backslash
              ("u00" +:+ String (hex_digit (n / 16)) (String (hex_digit (n mod 16)) EmptyString))
  else String c EmptyString.

Definition json_str (s : string) : string :=
  String dquote (String.concat "" (map json_char (list_ascii_of_string s))
                 +:+ String dquote EmptyString).

Fixpoint json_dumps_ascii (v : pyval) : string :=
  match v with
  | PNone => "null"
  | PBool true => "true"
  | PBool false => "false"
  | PInt z => pretty z
  | PStr s => json_str s
  | PList items => "[" +:+ String.concat ", " (map json_dumps_ascii items) +:+ "]"
  | PDict items =>
      "{" +:+ String.concat ", "
                (map (fun kv => json_str (fst kv) +:+ ": " +:+ json_dumps_ascii (snd kv)) items)
          +:+ "}"
  end.

(** *** Exceptions *)

(** The classes the modelled code can meet; all derive from
    [Exception].  [OtherError] stands for any other subclass of
    [Exception] a handler may raise, none of them below [TypeError]. *)
Inductive exc_class :=
| TypeError | IndexError | KeyError | AttributeError
| OtherError (cls : string).

(** An exception object: its class and [str(e)]. *)
Record exn := mkExn { exc_cls : exc_class; exc_str : string }.

Definition is_TypeError (e : exn) : bool :=
  match exc_cls e with TypeError => true | _ => false end.

(** The result of evaluating a Python expression or call. *)
Inductive outcome (A : Type) :=
| Ret (a : A)
| Raise (e : exn).
Arguments Ret {A} a.
Arguments Raise {A} e.

(** *** Dicts as insertion-ordered association lists *)

(** [d.get(k)] / [k in d]. *)
Fixpoint dict_get {K V} `{EqDecision K} (d : list (K * V)) (k : K) : option V :=
  match d with
  | [] => None
  | (k', v) :: d' => if decide (k' = k) then Some v else dict_get d' k
  end.

(** [d[k] = v]: the value of an existing key is replaced where it
    stands, a new key goes last. *)
Fixpoint dict_set {K V} `{EqDecision K} (d : list (K * V)) (k : K) (v : V) : list (K * V) :=
  match d with
  | [] => [(k, v)]
  | (k', v') :: d' =>
      if decide (k' = k) then (k', v) :: d' else (k', v') :: dict_set d' k v
  end.

Definition keys {K V} (d : list (K * V)) : list K := map fst d.

(** [v[0]]. *)
Definition getitem0 (v : pyval) : outcome pyval :=
  match v with
  | PList [] => Raise (mkExn IndexError "list index out of range")
  | PList (x :: _) => Ret x
  | PStr EmptyString => Raise (mkExn IndexError "string index out of range")
  | PStr (String c _) => Ret (PStr (String c EmptyString))
  | PDict _ => Raise (mkExn KeyError "0")
  | _ => Raise (mkExn TypeError ("'" +:+ type_name v +:+ "' object is not subscriptable"))
  end.

(** [d.get(key, default)] on a dict. *)
Definition dict_get_default {K V} `{EqDecision K} (d : list (K * V)) (k : K) (default : V) : V :=
  match dict_get d k with
  | Some x => x
  | None => default
  end.

(** [v.get(key, default)]: only a dict has the method. *)
Definition get_method (v : pyval) (key : string) (default : pyval) : outcome pyval :=
  match v with
  | PDict d => Ret (dict_get_default d key default)
  | _ => Raise (mkExn AttributeError
                  ("'" +:+ type_name v +:+ "' object has no attribute 'get'"))
  end.

End Py.

(** ** Handlers, agents and the dispatcher: [class BaseAgent] *)

Module Agent.
Import MemoryLog Py.

(** A bound method used as an action handler: its qualified name, the
    names of its parameters after [self] (all required, as in every
    handler of the file) and its body, run on the arguments in parameter
    order over the state [St] the method can reach.  Handlers return
    [str]. *)
Record handler (St : Type) := mkHandler {
  h_qualname : string;
  h_params : list string;
  h_body : list pyval -> St -> outcome string * St
}.
Arguments mkHandler {St} _ _ _.
Arguments h_qualname {St} _.
Arguments h_params {St} _.
Arguments h_body {St} _ _ _.

(** Ghost record of what a dispatch did, oldest first: each call of a
    handler with a dict unpacked as keywords and each call of
    [map_parameters]. *)
Inductive event :=
| EvCall (qualname : string) (kwargs : pydict)
| EvMapParameters (action : string) (params : pyval).

(** An agent: [self.name], [self.memory], the dict [get_action_map()]
    returns (the same at every call), the rest of the object state the
    handlers work on, and the ghost trace. *)
Record BaseAgent (St : Type) := mkAgent {
  name : string;
  memory : AIChatHistory;
  action_map : gmap string (handler St);
  self_state : St;
  trace : list event
}.
Arguments mkAgent {St} _ _ _ _ _.
Arguments name {St} _.
Arguments memory {St} _.
Arguments action_map {St} _.
Arguments self_state {St} _.
Arguments trace {St} _.

(** The local [mappings] of [map_parameters]. *)
Definition mappings : gmap string (gmap string string) :=
  <["conduct_market_research" := {["company_name" := "business_idea"]}]>
  (<["analyze_data" := {["research_topic" := "topic"]}]>
  (<["review_code" := {["existing_code" := "feature_name"]}]>
  (<["report_findings" := {["message" := "findings"]}]> ∅))).

Definition quoted (s : string) : string := "'" +:+ s +:+ "'".

Fixpoint comma_and (l : list string) : string :=
  match l with
  | [] => ""
  | [a] => "and " +:+ a
  | a :: l' => a +:+ ", " +:+ comma_and l'
  end.

(** How the interpreter lists missing argument names. *)
Definition format_missing (names : list string) : string :=
  match map quoted names with
  | [] => ""
  | [a] => a
  | [a; b] => a +:+ " and " +:+ b
  | l => comma_and l
  end.

Section Dispatch.
Context {St : Type}.

(** Computations over the agent: the state after the call comes with
    the outcome, also when the call raises. *)
Definition M (A : Type) : Type := BaseAgent St -> outcome A * BaseAgent St.

Definition ret {A} (x : A) : M A := fun a => (Ret x, a).
Definition raise {A} (e : exn) : M A := fun a => (Raise e, a).
Definition bind {A B} (m : M A) (k : A -> M B) : M B :=
  fun a => match m a with
           | (Ret x, a') => k x a'
           | (Raise e, a') => (Raise e, a')
           end.
Definition lift {A} (o : outcome A) : M A := fun a => (o, a).

Notation "'let*' x := m 'in' k" := (bind m (fun x => k))
  (at level 10, x name, m at level 100, k at level 200,
   format "'[v' 'let*'  x  :=  m  'in' '/' k ']'").

Definition set_memory (h : AIChatHistory) (a : BaseAgent St) : BaseAgent St :=
  mkAgent (name a) h (action_map a) (self_state a) (trace a).
Definition set_self_state (st : St) (a : BaseAgent St) : BaseAgent St :=
  mkAgent (name a) (memory a) (action_map a) st (trace a).
Definition record (ev : event) (a : BaseAgent St) : BaseAgent St :=
  mkAgent (name a) (memory a) (action_map a) (self_state a) (trace a ++ [ev]).

(** [self.memory.add_message(role, content)]. *)
Definition remember (role content : string) : M unit :=
  fun a => (Ret tt, set_memory (add_message (memory a) role content) a).

(** Keyword names the handler does not take, in the order of the call. *)
Definition unexpected_keywords (f : handler St) (kwargs : pydict) : list string :=
  filter (fun k => k ∉ h_params f) (keys kwargs).

(** Parameters the call gives no value for, in the order of the signature. *)
Definition missing_arguments (f : handler St) (kwargs : pydict) : list string :=
  filter (fun p => p ∉ keys kwargs) (h_params f).

(** The values of the parameters, in the order of the signature. *)
Definition bound_args (f : handler St) (kwargs : pydict) : list pyval :=
  omap (dict_get kwargs) (h_params f).

(** The keyword names are the parameter names: none unknown, none missing. *)
Definition matches_signature (f : handler St) (kwargs : pydict) : Prop :=
  Forall (fun k => k ∈ h_params f) (keys kwargs)
  /\ Forall (fun p => p ∈ keys kwargs) (h_params f).

#[global] Instance matches_signature_dec f kwargs : Decision (matches_signature f kwargs).
Proof. unfold matches_signature. apply _. Defined.

(** Binding the keywords of a call of [f] to its parameters: an unknown
    keyword is reported first, then missing arguments; both are
    [TypeError].  A keyword named "self" is taken as unknown like any
    other; the interpreter words that failure differently (a second
    value for [self]), class and path are the same. *)
Definition bind_arguments (f : handler St) (kwargs : pydict) : outcome (list pyval) :=
  match unexpected_keywords f kwargs with
  | k :: _ =>
      Raise (mkExn TypeError
               (h_qualname f +:+ "() got an unexpected keyword argument " +:+ quoted k))
  | [] =>
      match missing_arguments f kwargs with
      | [] => Ret (bound_args f kwargs)
      | ms =>
          Raise (mkExn TypeError
                   (h_qualname f +:+ "() missing " +:+ pretty (length ms)
                    +:+ " required positional argument"
                    +:+ (if decide (length ms = 1%nat) then "" else "s")
                    +:+ ": " +:+ format_missing ms))
      end
  end.

(** The call of [action_func] with [params] unpacked as keywords; what
    is unpacked has to be a dict.  The interpreter puts the name of the
    module before the qualified name in the message of that failure;
    the message here leaves it out. *)
Definition call (f : handler St) (params : pyval) : M string :=
  match params with
  | PDict kwargs =>
      fun a =>
        let a1 := record (EvCall (h_qualname f) kwargs) a in
        match bind_arguments f kwargs with
        | Raise e => (Raise e, a1)
        | Ret args =>
            let '(o, st) := h_body f args (self_state a1) in
            (o, set_self_state st a1)
        end
  | _ =>
      raise (mkExn TypeError
               (h_qualname f +:+ "() argument after ** must be a mapping, not "
                +:+ type_name params))
  end.

(** The dict comprehension of [map_parameters]:
    [{expected_params.get(k, k): v for k, v in params.items() if k in expected_params}]. *)
Definition rename_params (expected_params : gmap string string) (params : pydict) : pydict :=
  foldl (fun mapped kv =>
           if decide (is_Some (expected_params !! fst kv))
           then dict_set mapped (default (fst kv) (expected_params !! fst kv)) (snd kv)
           else mapped)
        [] params.

(** [map_parameters(self, action, params)] over a given table. *)
Definition map_parameters_in (table : gmap string (gmap string string))
    (action : string) (params : pyval) : M (option pydict) :=
  fun a =>
    let a1 := record (EvMapParameters action params) a in
    match table !! action with
    | Some expected_params =>
        match params with
        | PDict kwargs =>
            match rename_params expected_params kwargs with
            | [] => (Ret None, a1)
            | mapped => (Ret (Some mapped), a1)
            end
        | _ =>
            (Raise (mkExn AttributeError
                      ("'" +:+ type_name params +:+ "' object has no attribute 'items'")), a1)
        end
    | None => (Ret None, a1)
    end.

(** [execute_action(self, action, params)] over a given table.  The
    lookup [action_map.get(action)] stands outside the [try] and raises
    on an unhashable [action]; a [TypeError] of the first call leads to
    [map_parameters], whose own exception is not caught; any other
    exception of the first call gives the "Unexpected error" text. *)
Definition execute_action_in (table : gmap string (gmap string string))
    (action params : pyval) : M string :=
  match action with
  | PList _ | PDict _ =>
      raise (mkExn TypeError ("unhashable type: " +:+ quoted (type_name action)))
  | PStr act =>
      fun a =>
        match action_map a !! act with
        | Some action_func =>
            match call action_func params a with
            | (Ret r, a1) => (Ret r, a1)
            | (Raise te, a1) =>
                if is_TypeError te then
                  match map_parameters_in table act params a1 with
                  | (Raise e, a2) => (Raise e, a2)
                  | (Ret (Some ((_ :: _) as mapped_params)), a2) =>
                      match call action_func (PDict mapped_params) a2 with
                      | (Ret r, a3) => (Ret r, a3)
                      | (Raise e, a3) =>
                          (Ret ("Error executing action " +:+ quoted act +:+ ": " +:+ exc_str e), a3)
                      end
                  | (Ret _, a2) =>
                      (Ret ("Error executing action " +:+ quoted act +:+ ": " +:+ exc_str te), a2)
                  end
                else
                  (Ret ("Unexpected error executing action " +:+ quoted act +:+ ": " +:+ exc_str te), a1)
            end
        | None => (Ret ("Unknown action: " +:+ act), a)
        end
  | _ => ret ("Unknown action: " +:+ py_str action)
  end.

(** [map_parameters] and [execute_action] as the file has them, with
    the built-in table. *)
Definition map_parameters : string -> pyval -> M (option pydict) :=
  map_parameters_in mappings.

Definition execute_action : pyval -> pyval -> M string :=
  execute_action_in mappings.

(** What the specification promises of a dispatch whose handler fails
    inside its body: whatever the body raises, the result is the
    "Unexpected error" text and the dispatch made that one call only. *)
Definition internal_failure_is_distinct
    (a : BaseAgent St) (action : string) (f : handler St) (kwargs : pydict) : Prop :=
  action_map a !! action = Some f ->
  matches_signature f kwargs ->
  forall e st',
    h_body f (bound_args f kwargs) (self_state a) = (Raise e, st') ->
    execute_action (PStr action) (PDict kwargs) a
    = (Ret ("Unexpected error executing action " +:+ quoted action +:+ ": " +:+ exc_str e),
       set_self_state st' (record (EvCall (h_qualname f) kwargs) a)).

(** *** The agent loop *)

Section Loop.
(** [json.dumps], and the thought [generate_response] returns to
    [think] in each iteration (it returns [{}] when the service fails). *)
Variable json_dumps : pyval -> string.
Variable generator : nat -> pydict.

(** [think(self)] in iteration [i].  The context, the prompt, the tools
    and the system message only feed the generator; building them
    changes nothing and does not raise in any agent class of the file. *)
Definition think (i : nat) : M pydict :=
  let thought := generator i in
  let* _ := remember "agent" (json_dumps (PDict thought)) in
  ret thought.

(** [act(self, action)]. *)
Definition act (action : pydict) : M string :=
  let* result :=
    match dict_get action "tool_calls" with
    | Some calls =>
        let* first := lift (getitem0 calls) in
        let* tool_call := lift (get_method first "function" (PDict [])) in
        let* nm := lift (get_method tool_call "name" (PStr "")) in
        let* args := lift (get_method tool_call "arguments" (PDict [])) in
        execute_action nm args
    | None =>
        ret ("No actionable instruction found in: "
             +:+ py_str (dict_get_default action "content" (PStr "")))
    end in
  let* _ := remember "environment" ("Action result: " +:+ result) in
  ret result.

(** [learn(self, experience)]. *)
Definition learn (experience : pyval) : M unit :=
  remember "experience" (json_dumps experience).

(** The body of the [for] loop of [run], iteration [i] (logging and the
    sleep left out). *)
Definition iteration (i : nat) : M unit :=
  let* thought := think i in
  let* action := act thought in
  let experience := PDict [("thought", PDict thought); ("action", PStr action)] in
  learn experience.

(** [n] more iterations from iteration [i] on. *)
Fixpoint run_from (i n : nat) : M unit :=
  match n with
  | O => ret tt
  | S n' => let* _ := iteration i in run_from (S i) n'
  end.

(** [run(self, max_iterations=10)]: [range(max_iterations)] is empty for
    a count below 1. *)
Definition run (max_iterations : Z) : M unit :=
  run_from 0 (Z.to_nat max_iterations).

(** The roles of the three entries one iteration appends. *)
Definition iteration_roles : list string := ["agent"; "environment"; "experience"].

(** [run] completes its [max_iterations] iterations: it returns, and
    what it appended to the log is, per iteration, one "agent", one
    "environment" and one "experience" entry. *)
Definition run_completes (max_iterations : Z) (a : BaseAgent St) : Prop :=
  exists (a' : BaseAgent St) (calls : list (string * string)),
    run max_iterations a = (Ret tt, a')
    /\ memory a' = add_messages (memory a) calls
    /\ map fst calls = mjoin (replicate (Z.to_nat max_iterations) iteration_roles).

End Loop.
End Dispatch.

(** A thought [act] can take apart: no "tool_calls" key, or a list
    under it whose first element is a dict, with a dict (or nothing)
    under "function", a hashable name and a dict of arguments (or
    nothing) in it. *)
Definition is_dict (v : pyval) : bool :=
  match v with PDict _ => true | _ => false end.

Definition well_formed_call (first : pyval) : bool :=
  match first with
  | PDict entry =>
      match dict_get_default entry "function" (PDict []) with
      | PDict tool_call =>
          hashable (dict_get_default tool_call "name" (PStr ""))
          && is_dict (dict_get_default tool_call "arguments" (PDict []))
      | _ => false
      end
  | _ => false
  end.

Definition well_formed_thought (thought : pydict) : bool :=
  match dict_get thought "tool_calls" with
  | None => true
  | Some (PList (first :: _)) => well_formed_call first
  | Some _ => false
  end.

(** The entries of a log with role "experience". *)
Definition experiences (h : AIChatHistory) : list Message :=
  filter (fun m => role m = "experience") (messages h).

End Agent.

(** ** [class DeveloperAgent]: the [write_code] handler *)

Module Developer.
Import MemoryLog Py Agent.

(** [self.codebase]. *)
Record DeveloperState := mkDeveloper { codebase : list (pykey * pyval) }.

(** [write_code(self, feature_name, code)]: the store
    [self.codebase[feature_name] = code] raises on an unhashable
    [feature_name].  The body gets the two bound values; [call] never
    hands it another number of them, the last branch is there for
    totality. *)
Definition write_code : handler DeveloperState :=
  mkHandler "DeveloperAgent.write_code" ["feature_name"; "code"]
    (fun args st =>
       match args with
       | [feature_name; code] =>
           match key_of feature_name with
           | Some k =>
               (Ret ("Code written for " +:+ py_str feature_name +:+ "."),
                mkDeveloper (dict_set (codebase st) k code))
           | None =>
               (Raise (mkExn TypeError
                         ("unhashable type: " +:+ quoted (type_name feature_name))), st)
           end
       | _ => (Raise (mkExn TypeError "DeveloperAgent.write_code() takes 3 positional arguments"), st)
       end).

(** A developer agent right after construction whose action map has
    [write_code]. *)
Definition developer : BaseAgent DeveloperState :=
  mkAgent "DeveloperAI" (init default_max_messages)
    {["write_code" := write_code]} (mkDeveloper []) [].

(** The table of the specification's scenario, which has an entry for [write_code]. *)
Definition scenario_table : gmap string (gmap string string) :=
  {["write_code" := <["name" := "feature_name"]> {["body" := "code"]}]}.

(** The dispatch of the specification's scenario and the keywords it
    expects the handler to get. *)
Definition scenario_params : pydict := [("name", PStr "x"); ("body", PStr "y")].
Definition renamed_params : pydict := [("feature_name", PStr "x"); ("code", PStr "y")].

(** What the scenario promises on agent [a] with the table [table]: the
    success text of [write_code], after a call with the renamed keywords. *)
Definition write_code_scenario (table : gmap string (gmap string string))
    (a : BaseAgent DeveloperState) : Prop :=
  let r := execute_action_in table (PStr "write_code") (PDict scenario_params) a in
  fst r = Ret "Code written for x."
  /\ EvCall "DeveloperAgent.write_code" renamed_params ∈ trace (snd r).

End Developer.

(** ** [class EntrepreneurAgent]: the [conduct_market_research] handler *)

Module Entrepreneur.
Import MemoryLog Py Agent.

(** [self.business_idea] and the five dicts the handlers fill. *)
Record EntrepreneurState := mkEntrepreneur {
  business_idea : string;
  business_plan : pydict;
  market_research : pydict;
  financial_projections : pydict;
  product_development : pydict;
  marketing_strategy : pydict
}.

(** [conduct_market_research(self, business_idea)]: stores a fixed dict
    and returns a fixed text, whatever the argument.  As for
    [write_code], the last branch is there for totality. *)
Definition conduct_market_research : handler EntrepreneurState :=
  mkHandler "EntrepreneurAgent.conduct_market_research" ["business_idea"]
    (fun args st =>
       match args with
       | [_] =>
           (Ret "Market research conducted and updated.",
            mkEntrepreneur (business_idea st) (business_plan st)
              [("target_market",
                PStr "Millennials and Gen Z individuals seeking financial guidance");
               ("market_size",
                PStr "Estimated $50 billion global personal finance app market by 2028");
               ("customer_segments",
                PStr "Budget-conscious young professionals, gig economy workers, first-time investors");
               ("competitors",
                PStr "Traditional banks' apps, robo-advisors, and established fintech players");
               ("market_trends",
                PStr "Increasing demand for AI-powered financial advice and automation");
               ("swot_analysis",
                PStr ("Strengths: AI expertise; Weaknesses: New entrant; "
                      +:+ "Opportunities: Untapped AI potential in finance; Threats: Regulatory challenges"))]
              (financial_projections st) (product_development st) (marketing_strategy st))
       | _ =>
           (Raise (mkExn TypeError
                     "EntrepreneurAgent.conduct_market_research() takes 2 positional arguments"), st)
       end).

(** The entrepreneur of [main] right after construction, with the one
    handler modelled here in its action map. *)
Definition entrepreneur : BaseAgent EntrepreneurState :=
  mkAgent "EntrepreneurAI" (init default_max_messages)
    {["conduct_market_research" := conduct_market_research]}
    (mkEntrepreneur "AI-powered personal finance app" [] [] [] [] []) [].

End Entrepreneur.

(** ** Sample inputs *)

Module Samples.
Import MemoryLog Py Agent.

(** A handler of one parameter whose body always raises [ValueError]. *)
Definition faulty : handler unit :=
  mkHandler "Sample.faulty" ["x"]
    (fun _ st => (Raise (mkExn (OtherError "ValueError") "bad value"), st)).

Definition faulty_agent : BaseAgent unit :=
  mkAgent "SampleAI" (init default_max_messages) {["faulty" := faulty]} tt [].

(** The appends of the specification's scenario: A, B, C, D. *)
Definition abcd_calls : list (string * string) :=
  [("agent", "A"); ("environment", "B"); ("experience", "C"); ("agent", "D")].

(** A log that holds one message. *)
Definition one_message_log : AIChatHistory :=
  add_message (init default_max_messages) "agent" "A".

(** A thought that asks for [write_code] with argument names the handler
    does not have. *)
Definition mismatched_thought : pydict :=
  [("content", PStr "");
   ("tool_calls",
    PList [PDict [("function",
                   PDict [("name", PStr "write_code");
                          ("arguments", PDict [("name", PStr "x"); ("body", PStr "y")])])]])].

(** A thought whose first tool call is a string, not an object. *)
Definition malformed_thought : pydict := [("tool_calls", PList [PStr "write_code"])].

(** A thought with an empty list of tool calls. *)
Definition empty_calls_thought : pydict := [("tool_calls", PList [])].

End Samples.

(** Closes a decidable goal on closed terms by evaluation. *)
Ltac by_decision := refine (bool_decide_unpack _ _); vm_compute; exact I.

(** ** Truthiness and dicts keyed by arbitrary values *)

Module PyDict.
Import Py Agent.

(** [bool(v)], what [if not v] tests. *)
Definition truthy (v : pyval) : bool :=
  match v with
  | PNone => false
  | PBool b => b
  | PInt z => negb (z =? 0)
  | PStr EmptyString => false
  | PStr (String _ _) => true
  | PList [] => false
  | PList (_ :: _) => true
  | PDict [] => false
  | PDict (_ :: _) => true
  end.

(** The line break an f-string writes for its newline escape. *)
Definition newline : string := String (ascii_of_nat 10) EmptyString.

Definition unhashable (v : pyval) : exn :=
  mkExn TypeError ("unhashable type: " +:+ quoted (type_name v)).

(** [d.get(key, default)] on a dict keyed by arbitrary values: hashing
    the key comes first. *)
Definition get_key (d : list (pykey * pyval)) (key default : pyval) : outcome pyval :=
  match key_of key with
  | Some k => Ret (dict_get_default d k default)
  | None => Raise (unhashable key)
  end.

(** [d[key] = v]. *)
Definition set_key (d : list (pykey * pyval)) (key v : pyval) : outcome (list (pykey * pyval)) :=
  match key_of key with
  | Some k => Ret (dict_set d k v)
  | None => Raise (unhashable key)
  end.

(** What a handler body does when it is handed another number of
    values than it has parameters; [call] never does that. *)
Definition arity_error {St} (qualname : string) (st : St) : outcome string * St :=
  (Raise (mkExn TypeError (qualname +:+ "() takes another number of arguments")), st).

End PyDict.

(** ** The text service as the handlers see it *)

Module Service.
Import Py.

(** A service whose every call fails: [generate_response] returns [{}]. *)
Definition failing : string -> list pyval -> string -> pydict :=
  fun _ _ _ => [].

(** A service that answers every prompt with the same content. *)
Definition constant (content : string) : string -> list pyval -> string -> pydict :=
  fun _ _ _ => [("role", PStr "assistant"); ("content", PStr content)].

End Service.

(** ** [class DeveloperAgent]: the other handlers and the action map *)

Module DeveloperAgent.
Import MemoryLog Py Agent Developer PyDict.

Section Handlers.
(** [generate_response(prompt, tools, system_message)]: the message of
    the service's reply, [{}] when the call failed. *)
Variable generate_response : string -> list pyval -> string -> pydict.

(** [review_code(self, feature_name)]. *)
Definition review_code : handler DeveloperState :=
  mkHandler "DeveloperAgent.review_code" ["feature_name"]
    (fun args st =>
       match args with
       | [feature_name] =>
           match get_key (codebase st) feature_name (PStr "") with
           | Raise e => (Raise e, st)
           | Ret code =>
               if negb (truthy code)
               then (Ret ("No code found for feature: " +:+ py_str feature_name +:+ "."), st)
               else
                 let review :=
                   dict_get_default
                     (generate_response
                        ("Review the following code for " +:+ py_str feature_name +:+ ":"
                         +:+ newline +:+ py_str code) [] "")
                     "content" (PStr "") in
                 (Ret ("Code review for " +:+ py_str feature_name +:+ ": " +:+ py_str review), st)
           end
       | _ => arity_error "DeveloperAgent.review_code" st
       end).

(** [integrate_ai_model(self, model_name, integration_code)]: the key
    is a string built from [model_name], so the store cannot fail. *)
Definition integrate_ai_model : handler DeveloperState :=
  mkHandler "DeveloperAgent.integrate_ai_model" ["model_name"; "integration_code"]
    (fun args st =>
       match args with
       | [model_name; integration_code] =>
           (Ret ("AI model " +:+ py_str model_name +:+ " integrated successfully."),
            mkDeveloper (dict_set (codebase st)
                           (KStr ("ai_integration_" +:+ py_str model_name))
                           integration_code))
       | _ => arity_error "DeveloperAgent.integrate_ai_model" st
       end).

(** [get_action_map(self)]. *)
Definition get_action_map : gmap string (handler DeveloperState) :=
  <["write_code" := write_code]>
  (<["review_code" := review_code]>
  (<["integrate_ai_model" := integrate_ai_model]> ∅)).

(** [DeveloperAgent(name)]. *)
Definition new (name : string) : BaseAgent DeveloperState :=
  mkAgent name (init default_max_messages) get_action_map (mkDeveloper []) [].

End Handlers.
End DeveloperAgent.

(** ** [class TesterAgent] *)

Module TesterAgent.
Import MemoryLog Py Agent Developer PyDict.

(** What the handlers of the tester reach: the module global
    [developer] ([None] as long as [main] has not bound the name) and
    [self.test_results]. *)
Record TesterState := mkTester {
  developer_global : option DeveloperState;
  test_results : list (pykey * pyval)
}.

Definition developer_unbound : exn :=
  mkExn (OtherError "NameError") "name 'developer' is not defined".

Section Handlers.
Variable generate_response : string -> list pyval -> string -> pydict.

(** [run_tests(self, feature_name)]. *)
Definition run_tests : handler TesterState :=
  mkHandler "TesterAgent.run_tests" ["feature_name"]
    (fun args st =>
       match args with
       | [feature_name] =>
           match developer_global st with
           | None => (Raise developer_unbound, st)
           | Some dev =>
               match get_key (codebase dev) feature_name (PStr "") with
               | Raise e => (Raise e, st)
               | Ret code =>
                   if negb (truthy code)
                   then (Ret ("No code available for feature: " +:+ py_str feature_name +:+ "."), st)
                   else
                     let test_result :=
                       dict_get_default
                         (generate_response
                            ("Run tests for the feature '" +:+ py_str feature_name
                             +:+ "' with the following code:" +:+ newline +:+ py_str code) [] "")
                         "content" (PStr "") in
                     match set_key (test_results st) feature_name test_result with
                     | Raise e => (Raise e, st)
                     | Ret results =>
                         (Ret ("Tests for " +:+ py_str feature_name +:+ " completed successfully."),
                          mkTester (developer_global st) results)
                     end
               end
           end
       | _ => arity_error "TesterAgent.run_tests" st
       end).

(** [analyze_test_results(self, feature_name)]. *)
Definition analyze_test_results : handler TesterState :=
  mkHandler "TesterAgent.analyze_test_results" ["feature_name"]
    (fun args st =>
       match args with
       | [feature_name] =>
           match get_key (test_results st) feature_name (PStr "") with
           | Raise e => (Raise e, st)
           | Ret result =>
               if negb (truthy result)
               then (Ret ("No test results found for feature: " +:+ py_str feature_name +:+ "."), st)
               else
                 let analysis :=
                   dict_get_default
                     (generate_response
                        ("Analyze the following test results for " +:+ py_str feature_name +:+ ":"
                         +:+ newline +:+ py_str result) [] "")
                     "content" (PStr "") in
                 (Ret ("Test results for '" +:+ py_str feature_name +:+ "': " +:+ py_str analysis), st)
           end
       | _ => arity_error "TesterAgent.analyze_test_results" st
       end).

(** [report_bugs(self, feature_name, bug_description)]. *)
Definition report_bugs : handler TesterState :=
  mkHandler "TesterAgent.report_bugs" ["feature_name"; "bug_description"]
    (fun args st =>
       match args with
       | [feature_name; bug_description] =>
           (Ret ("Bug reported for '" +:+ py_str feature_name +:+ "': "
                 +:+ py_str bug_description +:+ "."), st)
       | _ => arity_error "TesterAgent.report_bugs" st
       end).

(** [get_action_map(self)]. *)
Definition get_action_map : gmap string (handler TesterState) :=
  <["run_tests" := run_tests]>
  (<["analyze_test_results" := analyze_test_results]>
  (<["report_bugs" := report_bugs]> ∅)).

(** [TesterAgent(name)], with the global [developer] as it is then. *)
Definition new (name : string) (dev : option DeveloperState) : BaseAgent TesterState :=
  mkAgent name (init default_max_messages) get_action_map (mkTester dev []) [].

End Handlers.
End TesterAgent.

(** ** [class ResearchAgent] *)

Module ResearchAgent.
Import MemoryLog Py Agent PyDict.

(** [self.research_data]. *)
Record ResearchState := mkResearch { research_data : list (pykey * pyval) }.

Section Handlers.
Variable generate_response : string -> list pyval -> string -> pydict.

(** [conduct_research(self, topic)]: the service is asked first, the
    store comes after. *)
Definition conduct_research : handler ResearchState :=
  mkHandler "ResearchAgent.conduct_research" ["topic"]
    (fun args st =>
       match args with
       | [topic] =>
           let research :=
             dict_get_default
               (generate_response
                  ("Conduct comprehensive research on the topic: " +:+ py_str topic +:+ ".") [] "")
               "content" (PStr "") in
           match set_key (research_data st) topic research with
           | Raise e => (Raise e, st)
           | Ret data =>
               (Ret ("Research on '" +:+ py_str topic +:+ "' completed successfully."),
                mkResearch data)
           end
       | _ => arity_error "ResearchAgent.conduct_research" st
       end).

(** [analyze_data(self, topic)]. *)
Definition analyze_data : handler ResearchState :=
  mkHandler "ResearchAgent.analyze_data" ["topic"]
    (fun args st =>
       match args with
       | [topic] =>
           match get_key (research_data st) topic (PStr "") with
           | Raise e => (Raise e, st)
           | Ret data =>
               if negb (truthy data)
               then (Ret ("No research data found for topic: " +:+ py_str topic +:+ "."), st)
               else
                 let analysis :=
                   dict_get_default
                     (generate_response
                        ("Analyze the following research data on " +:+ py_str topic +:+ ":"
                         +:+ newline +:+ py_str data) [] "")
                     "content" (PStr "") in
                 (Ret ("Data analysis for '" +:+ py_str topic +:+ "': " +:+ py_str analysis), st)
           end
       | _ => arity_error "ResearchAgent.analyze_data" st
       end).

(** [report_findings(self, topic, findings)]. *)
Definition report_findings : handler ResearchState :=
  mkHandler "ResearchAgent.report_findings" ["topic"; "findings"]
    (fun args st =>
       match args with
       | [topic; findings] =>
           (Ret ("Findings reported for '" +:+ py_str topic +:+ "': "
                 +:+ py_str findings +:+ "."), st)
       | _ => arity_error "ResearchAgent.report_findings" st
       end).

(** [get_action_map(self)]. *)
Definition get_action_map : gmap string (handler ResearchState) :=
  <["conduct_research" := conduct_research]>
  (<["analyze_data" := analyze_data]>
  (<["report_findings" := report_findings]> ∅)).

(** [ResearchAgent(name)]. *)
Definition new (name : string) : BaseAgent ResearchState :=
  mkAgent name (init default_max_messages) get_action_map (mkResearch []) [].

End Handlers.
End ResearchAgent.

(** ** Parts of the loop the facts below speak of *)

Module LoopParts.
Import MemoryLog Py Agent.

(** The exception [act] raises while it takes the first tool call
    apart, before any dispatch: [None] when it gets as far as
    [execute_action] or when the thought has no "tool_calls" key. *)
Definition extraction_error (thought : pydict) : option exn :=
  match dict_get thought "tool_calls" with
  | None => None
  | Some calls =>
      match getitem0 calls with
      | Raise e => Some e
      | Ret first =>
          match get_method first "function" (PDict []) with
          | Raise e => Some e
          | Ret tool_call =>
              match get_method tool_call "name" (PStr "") with
              | Raise e => Some e
              | Ret _ =>
                  match get_method tool_call "arguments" (PDict []) with
                  | Raise e => Some e
                  | Ret _ => None
                  end
              end
          end
      end
  end.

(** The generator as it looks from iteration [n] on. *)
Definition shift (n : nat) (generator : nat -> pydict) : nat -> pydict :=
  fun i => generator (n + i)%nat.

(** What a dispatch leaves alone: the name, the action map and the
    memory log. *)
Definition same_frame {St} (a a' : BaseAgent St) : Prop :=
  name a' = name a /\ action_map a' = action_map a /\ memory a' = memory a.

(** The agent is the same but for its memory log, which has got some
    entries through [add_message], and for what the handlers changed. *)
Definition appended_to {St} (a a' : BaseAgent St) : Prop :=
  name a' = name a
  /\ action_map a' = action_map a
  /\ exists calls, memory a' = add_messages (memory a) calls.

(** A generator whose first thought can be dispatched and whose later
    thoughts cannot be taken apart. *)
Definition second_thought_malformed (i : nat) : pydict :=
  match i with
  | O => Samples.mismatched_thought
  | S _ => Samples.malformed_thought
  end.

End LoopParts.

(** ** More sample inputs *)

Module MoreSamples.
Import MemoryLog Py Agent Developer.

(** The developer, the tester and the researcher of [main] right after
    construction, over a service that fails or answers with one text. *)
Definition developer_agent : BaseAgent DeveloperState :=
  DeveloperAgent.new (Service.constant "looks fine") "DeveloperAI".

Definition tester_alone : BaseAgent TesterAgent.TesterState :=
  TesterAgent.new Service.failing "TesterAI" None.

Definition tester_agent : BaseAgent TesterAgent.TesterState :=
  TesterAgent.new Service.failing "TesterAI"
    (Some (mkDeveloper [(KStr "login", PStr "pass")])).

Definition researcher : BaseAgent ResearchAgent.ResearchState :=
  ResearchAgent.new Service.failing "ResearchAI".

(** A thought with two tool calls, and the same with the first only. *)
Definition first_call : pyval :=
  PDict [("function",
          PDict [("name", PStr "write_code");
                 ("arguments", PDict [("feature_name", PStr "login"); ("code", PStr "pass")])])].

Definition two_calls_thought : pydict :=
  [("tool_calls", PList [first_call; PStr "ignored"])].

Definition one_call_thought : pydict :=
  [("content", PStr "only one"); ("tool_calls", PList [first_call])].

End MoreSamples.

(** ** Facts about the memory log *)

Module MemoryLogFacts.
Import MemoryLog.

Lemma pop0_drop {A} (l : list A) : pop0 l = drop 1 l.
Proof. by destruct l. Qed.

(** [pop(0)] in [add_message] never sees an empty list. *)
Lemma pop0_after_append {A} (l : list A) (x : A) :
  exists oldest, l ++ [x] = oldest :: pop0 (l ++ [x]).
Proof. destruct l as [|y l]; simpl; eauto. Qed.

Lemma add_message_capacity h role content :
  max_messages (add_message h role content) = max_messages h.
Proof. unfold add_message. by case_match. Qed.

Lemma add_messages_snoc h calls c :
  add_messages h (calls ++ [c]) = add_message (add_messages h calls) (fst c) (snd c).
Proof. unfold add_messages. by rewrite fold_left_app. Qed.

Lemma add_messages_capacity h calls :
  max_messages (add_messages h calls) = max_messages h.
Proof.
  induction calls as [|c calls IH] using rev_ind; [done|].
  by rewrite add_messages_snoc, add_message_capacity.
Qed.

Lemma entries_snoc calls c :
  entries (calls ++ [c]) = entries calls ++ [mkMessage (fst c) (snd c)].
Proof. unfold entries. by rewrite map_app. Qed.

Lemma length_entries calls : length (entries calls) = length calls.
Proof. unfold entries. by rewrite length_map. Qed.

(** The log after a run of appends on a fresh log is the suffix of the
    appended entries that fits the capacity; under a negative
    [max_messages] that is the empty list. *)
Lemma add_messages_suffix (c : Z) (calls : list (string * string)) :
  messages (add_messages (init c) calls)
  = drop (length calls - Z.to_nat c) (entries calls).
Proof.
  induction calls as [|x calls IH] using rev_ind; [done|].
  rewrite add_messages_snoc, entries_snoc, length_app. simpl length.
  unfold add_message.
  rewrite add_messages_capacity, IH. simpl max_messages.
  rewrite length_app, length_drop, length_entries. simpl length.
  destruct (Z.gtb_spec (Z.of_nat (length calls - (length calls - Z.to_nat c) + 1)) c) as [Hgt|Hle];
    simpl messages.
  - assert (Hn : (Z.to_nat c <= length calls)%nat) by lia.
    rewrite pop0_drop.
    rewrite <- (drop_app_le (entries calls)) by (rewrite length_entries; lia).
    rewrite drop_drop. f_equal. lia.
  - assert (Hn : (length calls < Z.to_nat c)%nat) by lia.
    replace (length calls - Z.to_nat c)%nat with 0%nat by lia.
    replace (length calls + 1 - Z.to_nat c)%nat with 0%nat by lia.
    done.
Qed.

(** C1. For every capacity [c] (a non-negative [max_messages]) and every
    run of [add_message] calls on a fresh log of that capacity: the
    length of the log is at most [c]; the log holds the most recently
    appended entries, in the order they were appended; and one more
    append either fits, and then only adds the new entry at the end, or
    exceeds [c], and then the entry that leaves is the oldest one, the
    head of the list, while the others keep their order. *)
Theorem add_message_bounded_fifo (c : Z) (calls : list (string * string)) :
  0 <= c ->
  let h := add_messages (init c) calls in
  Z.of_nat (length (messages h)) <= c
  /\ messages h = drop (length calls - Z.to_nat c) (entries calls)
  /\ forall role content,
       let h' := add_message h role content in
       Z.of_nat (length (messages h')) <= c
       /\ if Z.of_nat (length (messages h)) + 1 >? c
          then exists oldest,
                 messages h ++ [mkMessage role content] = oldest :: messages h'
          else messages h' = messages h ++ [mkMessage role content].
Proof.
  intros Hc h.
  assert (Hsuf : messages h = drop (length calls - Z.to_nat c) (entries calls))
    by apply add_messages_suffix.
  assert (Hlen : Z.of_nat (length (messages h)) <= c).
  { rewrite Hsuf, length_drop, length_entries. lia. }
  split; [done|]. split; [done|].
  intros role content h'. subst h'. unfold add_message.
  replace (max_messages h) with c by (subst h; by rewrite add_messages_capacity).
  rewrite length_app. simpl length.
  replace (Z.of_nat (length (messages h) + 1)) with (Z.of_nat (length (messages h)) + 1) by lia.
  destruct (Z.gtb_spec (Z.of_nat (length (messages h)) + 1) c) as [Hgt|Hle]; simpl messages.
  - split.
    + rewrite pop0_drop, length_drop, length_app. simpl length. lia.
    + apply pop0_after_append.
  - split; [|done]. rewrite length_app. simpl length. lia.
Qed.

Lemma add_message_bounded_fifo_witness :
  0 <= 3
  /\ Z.of_nat (length (messages (add_messages (init 3) Samples.abcd_calls))) <= 3
  /\ messages (add_messages (init 3) Samples.abcd_calls)
     = [mkMessage "environment" "B"; mkMessage "experience" "C"; mkMessage "agent" "D"].
Proof.
  assert (Hc : 0 <= 3) by lia.
  destruct (add_message_bounded_fifo 3 Samples.abcd_calls Hc) as [H1 [H2 _]].
  split; [exact Hc|]. split; [exact H1 | exact H2].
Defined.

(** The scenario of the specification: capacity 3, appends A, B, C, D. *)
Example abcd_context :
  get_context (add_messages (init 3) Samples.abcd_calls) 10
  = [mkMessage "environment" "B"; mkMessage "experience" "C"; mkMessage "agent" "D"].
Proof. reflexivity. Qed.

(** *** [get_context] *)

Lemma slice_from_length {A} (start : Z) (l : list A) :
  start < 0 ->
  slice_from start l = drop (length l - Z.to_nat (- start)) l.
Proof.
  intros Hneg. unfold slice_from.
  destruct (Z.ltb_spec start 0) as [_|?]; [|lia].
  f_equal. lia.
Qed.

(** For a positive [last_n] the context is the last [last_n] entries of
    the log, in log order: all of them when the log is shorter. *)
Lemma get_context_positive (h : AIChatHistory) (last_n : Z) :
  0 < last_n ->
  get_context h last_n = drop (length (messages h) - Z.to_nat last_n) (messages h)
  /\ Z.of_nat (length (get_context h last_n))
     = Z.min last_n (Z.of_nat (length (messages h))).
Proof.
  intros Hpos. unfold get_context.
  rewrite slice_from_length by lia. rewrite Z.opp_involutive.
  split; [done|]. rewrite length_drop. lia.
Qed.

(** C10. For every state of the log, [get_context] with [last_n = 0]
    returns the whole message list, every stored message in order: the
    slice from index [-0] is the slice from index [0]. *)
Theorem get_context_zero_whole_log (h : AIChatHistory) :
  get_context h 0 = messages h.
Proof. unfold get_context, slice_from. simpl. by destruct (messages h). Qed.

(** C2. At [last_n = 0] on a log of one message, [get_context] returns
    that one message, where the claim promises [min(0, 1) = 0] entries. *)
Theorem get_context_zero_breaks_min_length :
  get_context Samples.one_message_log 0 = [mkMessage "agent" "A"]
  /\ Z.of_nat (length (get_context Samples.one_message_log 0))
     <> Z.min 0 (Z.of_nat (length (messages Samples.one_message_log))).
Proof. split; [reflexivity|]. vm_compute. discriminate. Qed.

End MemoryLogFacts.

(** ** Facts about the dispatcher *)

Module DispatchFacts.
Import MemoryLog Py Agent.

(** Every entry of the built-in table renames one parameter name. *)
Lemma mappings_singleton (action : string) (expected : gmap string string) :
  mappings !! action = Some expected ->
  exists k k', expected = {[k := k']}.
Proof.
  unfold mappings. intros H.
  repeat (apply lookup_insert_Some in H as [[_ <-]|[_ H]]; [by eexists _, _|]).
  by rewrite lookup_empty in H.
Qed.

(** With an entry of one name the renamed dict is empty or has the one
    new name, with a supplied value. *)
Lemma rename_params_singleton (k k' : string) (kwargs : pydict) :
  rename_params {[k := k']} kwargs = []
  \/ exists v, (k, v) ∈ kwargs /\ rename_params {[k := k']} kwargs = [(k', v)].
Proof.
  unfold rename_params.
  induction kwargs as [|[k0 v0] kwargs IH] using rev_ind; [by left|].
  rewrite foldl_snoc. simpl.
  destruct (decide (k = k0)) as [->|Hne].
  - rewrite lookup_singleton_eq. simpl.
    right. exists v0. split; [apply elem_of_app; right; by apply list_elem_of_singleton|].
    destruct IH as [->|(v & _ & ->)]; simpl; [done|]. by rewrite decide_True.
  - rewrite lookup_singleton_ne by done. simpl.
    destruct IH as [IH|(v & Hin & IH)]; [by left|].
    right. exists v. split; [|done]. apply elem_of_app. by left.
Qed.

(** No entry of the built-in table renames a name to itself. *)
Lemma mappings_renames (action k k' : string) :
  mappings !! action = Some {[k := k']} -> k <> k'.
Proof.
  unfold mappings. intros H.
  repeat (apply lookup_insert_Some in H as [[_ H]|[_ H]];
          [match type of H with
           | {[?k0 := ?v0]} = _ =>
               assert (Hk : ({[k := k']} : gmap string string) !! k0 = Some v0)
                 by (rewrite <- H; apply lookup_singleton_eq);
               apply lookup_singleton_Some in Hk as [-> ->]; discriminate
           end|]).
  by rewrite lookup_empty in H.
Qed.

Section Generic.
Context {St : Type}.
Implicit Types (a : BaseAgent St) (f : handler St) (kwargs : pydict).

Lemma filter_none {A} (P : A -> Prop) `{forall x, Decision (P x)} (l : list A) :
  Forall (fun x => ~ P x) l -> filter P l = [].
Proof.
  induction 1 as [|x l Hx _ IH]; [done|].
  by rewrite filter_cons_False.
Qed.

Lemma matches_no_unexpected f kwargs :
  matches_signature f kwargs -> unexpected_keywords f kwargs = [].
Proof.
  intros [Hk _]. apply filter_none.
  eapply Forall_impl; [exact Hk|]. intros k Hin Hnot. by apply Hnot.
Qed.

Lemma matches_no_missing f kwargs :
  matches_signature f kwargs -> missing_arguments f kwargs = [].
Proof.
  intros [_ Hp]. apply filter_none.
  eapply Forall_impl; [exact Hp|]. intros k Hin Hnot. by apply Hnot.
Qed.

Lemma bind_arguments_matching f kwargs :
  matches_signature f kwargs -> bind_arguments f kwargs = Ret (bound_args f kwargs).
Proof.
  intros Hm. unfold bind_arguments.
  by rewrite (matches_no_unexpected _ _ Hm), (matches_no_missing _ _ Hm).
Qed.

(** Binding fails with [TypeError] only. *)
Lemma bind_arguments_TypeError f kwargs e :
  bind_arguments f kwargs = Raise e -> is_TypeError e = true.
Proof.
  unfold bind_arguments.
  destruct (unexpected_keywords f kwargs); [destruct (missing_arguments f kwargs)|];
    intros H; by simplify_eq.
Qed.

(** A call whose keywords match runs the body once on the bound values. *)
Lemma call_matching f kwargs a :
  matches_signature f kwargs ->
  call f (PDict kwargs) a
  = let a1 := record (EvCall (h_qualname f) kwargs) a in
    (fst (h_body f (bound_args f kwargs) (self_state a)),
     set_self_state (snd (h_body f (bound_args f kwargs) (self_state a))) a1).
Proof.
  intros Hm. unfold call. rewrite (bind_arguments_matching _ _ Hm). simpl.
  by destruct (h_body f (bound_args f kwargs) (self_state a)).
Qed.

(** A call whose keywords do not bind raises and leaves the object state alone. *)
Lemma call_mismatch f kwargs a te :
  bind_arguments f kwargs = Raise te ->
  call f (PDict kwargs) a = (Raise te, record (EvCall (h_qualname f) kwargs) a).
Proof. intros Hb. unfold call. by rewrite Hb. Qed.

(** Every call with a dict adds exactly one [EvCall] to the trace. *)
Lemma call_trace f kwargs a :
  trace (snd (call f (PDict kwargs) a)) = trace a ++ [EvCall (h_qualname f) kwargs].
Proof.
  unfold call. destruct (bind_arguments f kwargs); [|done].
  simpl. by destruct (h_body f a0 (self_state a)).
Qed.

(** C5. For every agent, every action name that is not a key of the
    agent's action map and every value passed as parameters,
    [execute_action] returns the text "Unknown action: " followed by the
    name; it does not raise, and it leaves the agent as it was. *)
Theorem execute_action_unknown a (action : string) (params : pyval) :
  action_map a !! action = None ->
  execute_action (PStr action) params a = (Ret ("Unknown action: " +:+ action), a).
Proof. intros Hnone. unfold execute_action, execute_action_in. by rewrite Hnone. Qed.

(** C6. For every action of the agent's action map and every parameter
    dict whose names are the handler's parameter names, when the handler
    returns [r] on the bound values, [execute_action] returns [r] with the
    state the handler left; the dispatch made this one call and did not
    call [map_parameters]. *)
Theorem execute_action_direct a (action : string) f kwargs (r : string) (st' : St) :
  action_map a !! action = Some f ->
  matches_signature f kwargs ->
  h_body f (bound_args f kwargs) (self_state a) = (Ret r, st') ->
  execute_action (PStr action) (PDict kwargs) a
  = (Ret r, set_self_state st' (record (EvCall (h_qualname f) kwargs) a))
  /\ trace (snd (execute_action (PStr action) (PDict kwargs) a))
     = trace a ++ [EvCall (h_qualname f) kwargs].
Proof.
  intros Hf Hm Hbody.
  assert (Heq : execute_action (PStr action) (PDict kwargs) a
                = (Ret r, set_self_state st' (record (EvCall (h_qualname f) kwargs) a))).
  { unfold execute_action, execute_action_in.
    by rewrite Hf, (call_matching _ _ _ Hm), Hbody. }
  split; [done|]. by rewrite Heq.
Qed.

(** A call with the one keyword [k'] does not bind a signature that
    has another parameter. *)
Lemma bind_renamed_fails f (k k' : string) (v : pyval) :
  k ∈ h_params f -> k <> k' ->
  exists e, bind_arguments f [(k', v)] = Raise e.
Proof.
  intros Hin Hne. unfold bind_arguments, unexpected_keywords, missing_arguments, keys.
  simpl map. rewrite filter_cons. case_decide as Hk; [eexists; reflexivity|].
  rewrite filter_nil.
  destruct (filter (fun p => p ∉ [k']) (h_params f)) as [|p ps] eqn:Hmiss;
    [|eexists; reflexivity].
  exfalso. eapply (filter_nil_not_elem_of _ _ k Hmiss); [|exact Hin].
  intros Hk'. apply Hne. by apply list_elem_of_singleton in Hk'.
Qed.

(** C8, amended. For every handler called with a parameter dict whose
    names are its parameter names: when its body raises an exception that
    is not a [TypeError], [execute_action] returns the text
    "Unexpected error executing action '<name>': <message>"; the dispatch
    made the one call, did not call [map_parameters] and did not retry.
    When its body raises a [TypeError], the dispatcher treats it as a
    mismatch of arguments: it calls [map_parameters] and returns a text
    that starts with "Error executing action '<name>': "; the state is
    the one the failed body left. *)
Theorem execute_action_internal_failure a (action : string) f kwargs (e : exn) (st' : St) :
  action_map a !! action = Some f ->
  matches_signature f kwargs ->
  h_body f (bound_args f kwargs) (self_state a) = (Raise e, st') ->
  let r := execute_action (PStr action) (PDict kwargs) a in
  if is_TypeError e
  then (exists msg : string,
          fst r = Ret ("Error executing action " +:+ quoted action +:+ ": " +:+ msg))
       /\ EvMapParameters action (PDict kwargs) ∈ trace (snd r)
       /\ self_state (snd r) = st'
  else r = (Ret ("Unexpected error executing action " +:+ quoted action +:+ ": "
                 +:+ exc_str e),
            set_self_state st' (record (EvCall (h_qualname f) kwargs) a))
       /\ trace (snd r) = trace a ++ [EvCall (h_qualname f) kwargs].
Proof.
  intros Hf Hm Hbody r. subst r.
  set (a1 := set_self_state st' (record (EvCall (h_qualname f) kwargs) a)).
  assert (Hcall : call f (PDict kwargs) a = (Raise e, a1))
    by (by rewrite (call_matching _ _ _ Hm), Hbody).
  assert (Hev : forall evs, EvMapParameters action (PDict kwargs)
                            ∈ (trace a1 ++ [EvMapParameters action (PDict kwargs)]) ++ evs).
  { intros evs. apply elem_of_app. left. apply elem_of_app. right.
    by apply list_elem_of_singleton. }
  unfold execute_action, execute_action_in. rewrite Hf, Hcall.
  destruct (is_TypeError e); [|done].
  unfold map_parameters_in.
  destruct (mappings !! action) as [expected|] eqn:Hentry.
  - destruct (mappings_singleton _ _ Hentry) as (k & k' & ->).
    destruct (rename_params_singleton k k' kwargs) as [->|(v & Hin & ->)].
    + cbn [fst snd]. split; [by eexists|]. split; [|done].
      cbn [trace record]. rewrite <- (app_nil_r (_ ++ [_])). apply Hev.
    + assert (Hk : k ∈ h_params f).
      { destruct Hm as [Hkeys _]. rewrite Forall_forall in Hkeys. apply Hkeys.
        unfold keys. apply list_elem_of_fmap. by exists (k, v). }
      destruct (bind_renamed_fails f k k' v Hk (mappings_renames _ _ _ Hentry)) as [e' He'].
      rewrite (call_mismatch _ _ _ _ He'). cbn [fst snd].
      split; [by eexists|]. split; [apply Hev|done].
  - cbn [fst snd]. split; [by eexists|]. split; [|done].
    cbn [trace record]. rewrite <- (app_nil_r (_ ++ [_])). apply Hev.
Qed.



(** *** The renaming of [map_parameters] *)

Lemma elem_of_dict_set {V} (d : list (string * V)) (k k' : string) (v v' : V) :
  (k', v') ∈ dict_set d k v -> (k', v') = (k, v) \/ (k', v') ∈ d.
Proof.
  induction d as [|[k0 v0] d IH]; simpl.
  - intros ->%list_elem_of_singleton. by left.
  - case_decide as Hk; intros [Heq|Hin]%elem_of_cons.
    + left. by simplify_eq.
    + right. by apply elem_of_cons; right.
    + right. by apply elem_of_cons; left.
    + destruct (IH Hin) as [?|?]; [by left|]. right. by apply elem_of_cons; right.
Qed.

Lemma keys_dict_set_new {V} (d : list (string * V)) (k : string) (v : V) :
  k ∈ keys (dict_set d k v).
Proof.
  unfold keys. induction d as [|[k0 v0] d IH]; simpl.
  - by apply elem_of_cons; left.
  - case_decide as Hk; simpl; apply elem_of_cons; [by left; simplify_eq | by right].
Qed.

Lemma keys_dict_set_old {V} (d : list (string * V)) (k k' : string) (v : V) :
  k' ∈ keys d -> k' ∈ keys (dict_set d k v).
Proof.
  unfold keys. induction d as [|[k0 v0] d IH]; simpl.
  - by intros ?%elem_of_nil.
  - case_decide as Hk; simpl; intros [->|Hin]%elem_of_cons;
      apply elem_of_cons; auto.
Qed.

(** Every entry of the renamed dict comes from a supplied parameter
    whose name is a key of the table entry, under the name the entry
    gives it. *)
Lemma rename_params_sound (expected : gmap string string) kwargs (k' : string) (v : pyval) :
  (k', v) ∈ rename_params expected kwargs ->
  exists k, (k, v) ∈ kwargs /\ expected !! k = Some k'.
Proof.
  unfold rename_params.
  induction kwargs as [|[k0 v0] kwargs IH] using rev_ind; simpl.
  - by intros ?%elem_of_nil.
  - rewrite foldl_snoc. simpl. case_decide as Hin.
    + destruct Hin as [k1 Hk1]. rewrite Hk1. simpl.
      intros [Heq|Hold]%elem_of_dict_set.
      * simplify_eq. exists k0. split; [|done]. apply elem_of_app. right.
        by apply list_elem_of_singleton.
      * destruct (IH Hold) as (k & Hk & He). exists k. split; [|done].
        apply elem_of_app. by left.
    + intros Hold. destruct (IH Hold) as (k & Hk & He). exists k. split; [|done].
      apply elem_of_app. by left.
Qed.

(** Every supplied parameter whose name is a key of the table entry has
    its new name among the keys of the renamed dict. *)
Lemma rename_params_complete (expected : gmap string string) kwargs (k k' : string) (v : pyval) :
  (k, v) ∈ kwargs -> expected !! k = Some k' ->
  k' ∈ keys (rename_params expected kwargs).
Proof.
  unfold rename_params.
  induction kwargs as [|[k0 v0] kwargs IH] using rev_ind; simpl.
  - by intros ?%elem_of_nil.
  - rewrite foldl_snoc. simpl.
    intros [Hin|Hlast%list_elem_of_singleton]%elem_of_app He.
    + specialize (IH Hin He). case_decide; [|done]. by apply keys_dict_set_old.
    + simplify_eq. rewrite He. simpl. apply keys_dict_set_new.
Qed.

(** C7. When the call with the supplied parameters fails to bind (an
    unknown or a missing argument name), the action has an entry in the
    table of [map_parameters], and the supplied parameters restricted to
    the names of that entry and renamed by it are not empty, then
    [execute_action] calls the handler a second time with exactly that
    renamed dict and no third time: the result is what the second call
    returns, or the "Error executing action" text with the exception
    the second call raises.  Every entry of the renamed dict comes from a
    supplied parameter named in the table entry, and every such parameter
    has its new name in the renamed dict. *)
Theorem execute_action_retry a (action : string) f kwargs (te : exn)
    (expected : gmap string string) :
  action_map a !! action = Some f ->
  bind_arguments f kwargs = Raise te ->
  mappings !! action = Some expected ->
  rename_params expected kwargs <> [] ->
  let mapped := rename_params expected kwargs in
  let a2 := record (EvMapParameters action (PDict kwargs))
              (record (EvCall (h_qualname f) kwargs) a) in
  let retry := call f (PDict mapped) a2 in
  execute_action (PStr action) (PDict kwargs) a
  = (match fst retry with
     | Ret r => Ret r
     | Raise e => Ret ("Error executing action " +:+ quoted action +:+ ": " +:+ exc_str e)
     end, snd retry)
  /\ trace (snd (execute_action (PStr action) (PDict kwargs) a))
     = trace a ++ [EvCall (h_qualname f) kwargs;
                   EvMapParameters action (PDict kwargs);
                   EvCall (h_qualname f) mapped]
  /\ (forall k' v, (k', v) ∈ mapped -> exists k, (k, v) ∈ kwargs /\ expected !! k = Some k')
  /\ (forall k v k', (k, v) ∈ kwargs -> expected !! k = Some k' -> k' ∈ keys mapped).
Proof.
  intros Hf Hbind Hentry Hne mapped a2 retry.
  assert (Heq : execute_action (PStr action) (PDict kwargs) a
    = (match fst retry with
       | Ret r => Ret r
       | Raise e => Ret ("Error executing action " +:+ quoted action +:+ ": " +:+ exc_str e)
       end, snd retry)).
  { unfold execute_action, execute_action_in.
    rewrite Hf, (call_mismatch _ _ _ _ Hbind), (bind_arguments_TypeError _ _ _ Hbind).
    unfold map_parameters_in. rewrite Hentry.
    fold mapped. fold a2.
    destruct mapped as [|kv mapped'] eqn:Hmapped; [done|].
    fold retry. by destruct retry as [[r|e] a3]. }
  split; [done|]. split.
  - rewrite Heq. simpl. subst retry. rewrite call_trace. subst a2. simpl.
    by rewrite <- !app_assoc.
  - split.
    + intros k' v. apply rename_params_sound.
    + intros k v k'. apply rename_params_complete.
Qed.

End Generic.
End DispatchFacts.

(** ** Facts about the agent loop *)

Module LoopFacts.
Import MemoryLog Py Agent MemoryLogFacts DispatchFacts.

Section Generic.
Context {St : Type}.
Variable json_dumps : pyval -> string.
Variable generator : nat -> pydict.
Implicit Types (a : BaseAgent St) (f : handler St) (kwargs : pydict).

(** A handler call does not touch the memory log. *)
Lemma call_memory f (params : pyval) a : memory (snd (call f params a)) = memory a.
Proof.
  destruct params; try done.
  unfold call. destruct (bind_arguments f items); [|done].
  simpl. by destruct (h_body f a0 (self_state a)).
Qed.

(** On a dict of parameters [map_parameters] returns. *)
Lemma map_parameters_in_dict (table : gmap string (gmap string string))
    (action : string) kwargs a :
  exists o, map_parameters_in table action (PDict kwargs) a
            = (Ret o, record (EvMapParameters action (PDict kwargs)) a).
Proof.
  unfold map_parameters_in. destruct (table !! action) as [expected|]; [|eauto].
  destruct (rename_params expected kwargs); eauto.
Qed.

(** With a hashable name and a dict of parameters [execute_action]
    returns a text, whatever the name and the parameters are, and leaves
    the memory log alone. *)
Lemma execute_action_returns (nm : pyval) kwargs a :
  hashable nm = true ->
  exists r a', execute_action nm (PDict kwargs) a = (Ret r, a') /\ memory a' = memory a.
Proof.
  intros Hh. unfold execute_action, execute_action_in.
  destruct nm as [| | |s| |]; try discriminate; try (by eexists _, _).
  destruct (action_map a !! s) as [f|]; [|by eexists _, _].
  pose proof (call_memory f (PDict kwargs) a) as Hm1.
  destruct (call f (PDict kwargs) a) as [[r|te] a1]; [by eexists _, _|].
  simpl in Hm1.
  destruct (is_TypeError te); [|by eexists _, _].
  destruct (map_parameters_in_dict mappings s kwargs a1) as [o ->].
  set (a2 := record _ a1).
  assert (Hm2 : memory a2 = memory a) by done.
  destruct o as [[|kv mapped]|]; try (by eexists _, _).
  pose proof (call_memory f (PDict (kv :: mapped)) a2) as Hm3.
  destruct (call f (PDict (kv :: mapped)) a2) as [[r|e] a3]; simpl in Hm3;
    eexists _, _; (split; [done|congruence]).
Qed.

(** On a well-formed thought [act] returns the result text and appends
    it as an "environment" entry. *)
Lemma act_returns (thought : pydict) a :
  well_formed_thought thought = true ->
  exists r a', act thought a = (Ret r, a')
               /\ memory a' = add_message (memory a) "environment" ("Action result: " +:+ r).
Proof.
  unfold well_formed_thought, act.
  destruct (dict_get thought "tool_calls") as [calls|] eqn:Hcalls.
  - destruct calls as [| | | |[|first rest]|]; try discriminate.
    unfold well_formed_call.
    destruct first as [| | | | |entry]; try discriminate.
    destruct (dict_get_default entry "function" (PDict [])) as [| | | | |tool_call] eqn:Hfn;
      try discriminate.
    intros [Hname Hargs]%andb_prop.
    destruct (dict_get_default tool_call "arguments" (PDict [])) as [| | | | |kwargs] eqn:Hkw;
      try discriminate.
    destruct (execute_action_returns (dict_get_default tool_call "name" (PStr "")) kwargs a Hname)
      as (r & a1 & Hexec & Hmem).
    exists r, (set_memory (add_message (memory a1) "environment" ("Action result: " +:+ r)) a1).
    split; [|by rewrite <- Hmem].
    unfold bind, lift, get_method, getitem0. rewrite Hfn, Hkw, Hexec. done.
  - intros _. by eexists _, _.
Qed.

Lemma add_messages_app h (c1 c2 : list (string * string)) :
  add_messages h (c1 ++ c2) = add_messages (add_messages h c1) c2.
Proof. unfold add_messages. by rewrite fold_left_app. Qed.

(** One iteration on a well-formed thought returns and appends its
    three entries. *)
Lemma iteration_returns (i : nat) a :
  well_formed_thought (generator i) = true ->
  exists a' c1 c2 c3,
    iteration json_dumps generator i a = (Ret tt, a')
    /\ memory a' = add_messages (memory a)
                     [("agent", c1); ("environment", c2); ("experience", c3)].
Proof.
  intros Hwf. unfold iteration, think.
  set (a1 := set_memory (add_message (memory a) "agent"
                           (json_dumps (PDict (generator i)))) a).
  destruct (act_returns (generator i) a1 Hwf) as (r & a2 & Hact & Hmem).
  eexists _, _, _, _. split.
  - unfold bind at 1. unfold bind at 1. unfold remember at 1. fold a1.
    unfold ret at 1. unfold bind at 1. rewrite Hact. unfold learn, remember. done.
  - simpl. by rewrite Hmem.
Qed.

Lemma run_from_completes (n i : nat) a :
  (forall j, (i <= j < i + n)%nat -> well_formed_thought (generator j) = true) ->
  exists (a' : BaseAgent St) (calls : list (string * string)),
    run_from json_dumps generator i n a = (Ret tt, a')
    /\ memory a' = add_messages (memory a) calls
    /\ map fst calls = mjoin (replicate n iteration_roles).
Proof.
  revert i a. induction n as [|n IH]; intros i a Hwf.
  - exists a, []. done.
  - destruct (iteration_returns i a) as (a1 & c1 & c2 & c3 & Hit & Hmem1).
    { apply Hwf. lia. }
    destruct (IH (S i) a1) as (a' & calls & Hrun & Hmem & Hroles).
    { intros j Hj. apply Hwf. lia. }
    exists a', ([("agent", c1); ("environment", c2); ("experience", c3)] ++ calls).
    split; [|split].
    + simpl run_from. unfold bind at 1. by rewrite Hit.
    + by rewrite add_messages_app, <- Hmem1.
    + rewrite map_app, Hroles. done.
Qed.

(** Of the roles [k] iterations append, [k] are "experience". *)
Lemma experience_roles_count (n : nat) :
  length (filter (fun r => r = "experience") (mjoin (replicate n iteration_roles))) = n.
Proof.
  induction n as [|n IH]; [done|].
  change (mjoin (replicate (S n) iteration_roles))
    with (iteration_roles ++ mjoin (replicate n iteration_roles)).
  rewrite filter_app, length_app, IH. done.
Qed.

(** C3, amended. For every agent, every count [k] and every generator
    whose thoughts of the first [k] iterations are well formed (no
    "tool_calls" key, or under it a list whose first element is a dict
    with, when present, a dict under "function", a hashable name and a
    dict of arguments), [run] with [max_iterations = k] returns after [k]
    iterations, and what it appended to the log is, per iteration, one
    "agent", one "environment" and one "experience" entry: whether the
    named action exists and whether its arguments fit the handler plays
    no role. *)
Theorem run_well_formed_completes (k : Z) a :
  (forall i, (i < Z.to_nat k)%nat -> well_formed_thought (generator i) = true) ->
  run_completes json_dumps generator k a.
Proof.
  intros Hwf. unfold run_completes, run.
  apply run_from_completes. intros j Hj. apply Hwf. lia.
Qed.

(** A thought whose list of tool calls is empty ends the loop in its
    first iteration: [act] raises [IndexError] after [think] has appended
    the thought, and [run] passes the exception on. *)
Lemma run_stops_on_empty_tool_calls (p : positive) a :
  (forall i, generator i = Samples.empty_calls_thought) ->
  run json_dumps generator (Z.pos p) a
  = (Raise (mkExn IndexError "list index out of range"),
     set_memory (add_message (memory a) "agent"
                   (json_dumps (PDict Samples.empty_calls_thought))) a).
Proof.
  intros Hgen. unfold run. rewrite Z2Nat.inj_pos.
  destruct (Pos2Nat.is_succ p) as [n ->].
  simpl run_from. unfold bind at 1. unfold iteration, think. rewrite Hgen.
  reflexivity.
Qed.

End Generic.
End LoopFacts.

(** ** The handlers of the file under the dispatcher *)

Module HandlerFacts.
Import MemoryLog Py Agent Developer Entrepreneur Samples DispatchFacts LoopFacts.

Lemma execute_action_unknown_witness :
  action_map developer !! "nonexistent_action" = None
  /\ execute_action (PStr "nonexistent_action") (PDict []) developer
     = (Ret "Unknown action: nonexistent_action", developer).
Proof.
  assert (Hnone : action_map developer !! "nonexistent_action" = None) by reflexivity.
  split; [exact Hnone|].
  exact (execute_action_unknown developer "nonexistent_action" (PDict []) Hnone).
Defined.

Lemma renamed_matches_write_code : matches_signature write_code renamed_params.
Proof. by_decision. Qed.

Lemma execute_action_direct_witness :
  matches_signature write_code renamed_params
  /\ fst (execute_action (PStr "write_code") (PDict renamed_params) developer)
     = Ret "Code written for x."
  /\ trace (snd (execute_action (PStr "write_code") (PDict renamed_params) developer))
     = [EvCall "DeveloperAgent.write_code" renamed_params].
Proof.
  assert (Hm : matches_signature write_code renamed_params)
    by by_decision.
  destruct (execute_action_direct developer "write_code" write_code renamed_params
              "Code written for x." (mkDeveloper [(KStr "x", PStr "y")])
              eq_refl Hm eq_refl) as [Heq Htrace].
  split; [exact Hm|]. split; [by rewrite Heq | exact Htrace].
Defined.

Lemma execute_action_retry_witness :
  fst (execute_action (PStr "conduct_market_research")
         (PDict [("company_name", PStr "FinGenius"); ("extra", PInt 1)]) entrepreneur)
  = Ret "Market research conducted and updated."
  /\ trace (snd (execute_action (PStr "conduct_market_research")
                   (PDict [("company_name", PStr "FinGenius"); ("extra", PInt 1)])
                   entrepreneur))
     = [EvCall "EntrepreneurAgent.conduct_market_research"
          [("company_name", PStr "FinGenius"); ("extra", PInt 1)];
        EvMapParameters "conduct_market_research"
          (PDict [("company_name", PStr "FinGenius"); ("extra", PInt 1)]);
        EvCall "EntrepreneurAgent.conduct_market_research"
          [("business_idea", PStr "FinGenius")]].
Proof.
  assert (Hne : rename_params {["company_name" := "business_idea"]}
                  [("company_name", PStr "FinGenius"); ("extra", PInt 1)] <> [])
    by (vm_compute; discriminate).
  destruct (execute_action_retry entrepreneur "conduct_market_research"
              conduct_market_research
              [("company_name", PStr "FinGenius"); ("extra", PInt 1)]
              (mkExn TypeError
                 "EntrepreneurAgent.conduct_market_research() got an unexpected keyword argument 'company_name'")
              {["company_name" := "business_idea"]}
              eq_refl eq_refl eq_refl Hne) as (Heq & Htrace & _).
  split; [by rewrite Heq | exact Htrace].
Defined.

(** C8 fails on the code: [write_code] called with its two parameter
    names and an unhashable [feature_name] raises [TypeError] from its
    own store into [self.codebase]; the dispatcher takes it for a
    mismatch of arguments, calls [map_parameters] and answers with the
    "Error executing action" text. *)
Lemma internal_TypeError_not_distinct :
  ~ internal_failure_is_distinct developer "write_code" write_code
      [("feature_name", PList []); ("code", PStr "y")].
Proof.
  intros Hclaim.
  assert (Hm : matches_signature write_code [("feature_name", PList []); ("code", PStr "y")])
    by by_decision.
  specialize (Hclaim eq_refl Hm
                (mkExn TypeError "unhashable type: 'list'") (mkDeveloper []) eq_refl).
  vm_compute in Hclaim. discriminate Hclaim.
Qed.

(** What the dispatcher does there. *)
Lemma internal_TypeError_outcome :
  execute_action (PStr "write_code")
    (PDict [("feature_name", PList []); ("code", PStr "y")]) developer
  = (Ret "Error executing action 'write_code': unhashable type: 'list'",
     record (EvMapParameters "write_code"
               (PDict [("feature_name", PList []); ("code", PStr "y")]))
       (record (EvCall "DeveloperAgent.write_code"
                  [("feature_name", PList []); ("code", PStr "y")]) developer)).
Proof. reflexivity. Qed.

Lemma execute_action_internal_failure_witness :
  matches_signature faulty [("x", PInt 1)]
  /\ fst (execute_action (PStr "faulty") (PDict [("x", PInt 1)]) faulty_agent)
     = Ret "Unexpected error executing action 'faulty': bad value"
  /\ trace (snd (execute_action (PStr "faulty") (PDict [("x", PInt 1)]) faulty_agent))
     = [EvCall "Sample.faulty" [("x", PInt 1)]]
  /\ (exists msg : string,
        fst (execute_action (PStr "write_code")
               (PDict [("feature_name", PList []); ("code", PStr "y")]) developer)
        = Ret ("Error executing action " +:+ quoted "write_code" +:+ ": " +:+ msg)).
Proof.
  assert (Hm : matches_signature faulty [("x", PInt 1)]) by by_decision.
  assert (Hm2 : matches_signature write_code [("feature_name", PList []); ("code", PStr "y")])
    by by_decision.
  destruct (execute_action_internal_failure faulty_agent "faulty" faulty [("x", PInt 1)]
              (mkExn (OtherError "ValueError") "bad value") tt
              eq_refl Hm eq_refl) as [Heq Htrace].
  destruct (execute_action_internal_failure developer "write_code" write_code
              [("feature_name", PList []); ("code", PStr "y")]
              (mkExn TypeError "unhashable type: 'list'") (mkDeveloper [])
              eq_refl Hm2 eq_refl) as (Hmsg & _ & _).
  split; [exact Hm|]. split; [by rewrite Heq|]. split; [exact Htrace | exact Hmsg].
Defined.

(** *** The [write_code] scenario *)

Lemma scenario_params_do_not_bind :
  bind_arguments write_code scenario_params
  = Raise (mkExn TypeError
             "DeveloperAgent.write_code() got an unexpected keyword argument 'name'").
Proof. reflexivity. Qed.

(** C9 fails on the code: on the developer agent the dispatch of the
    scenario does not return the success text of [write_code]. *)
Lemma write_code_scenario_fails : ~ write_code_scenario mappings developer.
Proof. intros [Hres _]. vm_compute in Hres. discriminate Hres. Qed.

(** C9, amended. On every agent whose action map has [write_code] under
    "write_code", the dispatch of "write_code" with the parameters
    [{"name": "x", "body": "y"}] returns the text "Error executing action
    'write_code': " followed by the message of the failed call: the
    table of [map_parameters] has no entry for "write_code", so the
    handler is called once, with the parameters as supplied, its body
    does not run and the agent's state is as before. *)
Theorem write_code_scenario_unmapped (a : BaseAgent DeveloperState) :
  action_map a !! "write_code" = Some write_code ->
  execute_action (PStr "write_code") (PDict scenario_params) a
  = (Ret "Error executing action 'write_code': DeveloperAgent.write_code() got an unexpected keyword argument 'name'",
     record (EvMapParameters "write_code" (PDict scenario_params))
       (record (EvCall "DeveloperAgent.write_code" scenario_params) a))
  /\ mappings !! "write_code" = None
  /\ self_state (snd (execute_action (PStr "write_code") (PDict scenario_params) a))
     = self_state a
  /\ trace (snd (execute_action (PStr "write_code") (PDict scenario_params) a))
     = trace a ++ [EvCall "DeveloperAgent.write_code" scenario_params;
                   EvMapParameters "write_code" (PDict scenario_params)].
Proof.
  intros Hf.
  assert (Heq : execute_action (PStr "write_code") (PDict scenario_params) a
    = (Ret "Error executing action 'write_code': DeveloperAgent.write_code() got an unexpected keyword argument 'name'",
       record (EvMapParameters "write_code" (PDict scenario_params))
         (record (EvCall "DeveloperAgent.write_code" scenario_params) a))).
  { unfold execute_action, execute_action_in.
    rewrite Hf, (call_mismatch _ _ _ _ scenario_params_do_not_bind).
    reflexivity. }
  split; [exact Heq|]. split; [reflexivity|]. rewrite Heq. simpl.
  split; [done|]. by rewrite <- app_assoc.
Qed.

Lemma write_code_scenario_unmapped_witness :
  action_map developer !! "write_code" = Some write_code
  /\ fst (execute_action (PStr "write_code") (PDict scenario_params) developer)
     = Ret "Error executing action 'write_code': DeveloperAgent.write_code() got an unexpected keyword argument 'name'"
  /\ self_state (snd (execute_action (PStr "write_code") (PDict scenario_params) developer))
     = mkDeveloper [].
Proof.
  assert (Hf : action_map developer !! "write_code" = Some write_code) by reflexivity.
  destruct (write_code_scenario_unmapped developer Hf) as (Heq & _ & Hst & _).
  split; [exact Hf|]. split; [by rewrite Heq | exact Hst].
Defined.

(** With the table of the specification's scenario in place of the
    built-in one, the scenario goes as the specification says: the second
    call gets [{"feature_name": "x", "code": "y"}] and succeeds. *)
Lemma write_code_scenario_with_entry (a : BaseAgent DeveloperState) :
  action_map a !! "write_code" = Some write_code ->
  write_code_scenario scenario_table a
  /\ codebase (self_state (snd (execute_action_in scenario_table (PStr "write_code")
                                  (PDict scenario_params) a)))
     = dict_set (codebase (self_state a)) (KStr "x") (PStr "y").
Proof.
  intros Hf. unfold write_code_scenario.
  assert (Heq : execute_action_in scenario_table (PStr "write_code") (PDict scenario_params) a
    = (Ret "Code written for x.",
       set_self_state (mkDeveloper (dict_set (codebase (self_state a)) (KStr "x") (PStr "y")))
         (record (EvCall "DeveloperAgent.write_code" renamed_params)
            (record (EvMapParameters "write_code" (PDict scenario_params))
               (record (EvCall "DeveloperAgent.write_code" scenario_params) a))))).
  { unfold execute_action_in.
    rewrite Hf, (call_mismatch _ _ _ _ scenario_params_do_not_bind).
    reflexivity. }
  rewrite Heq. simpl. split; [|done]. split; [done|].
  apply elem_of_app. right. by apply list_elem_of_singleton.
Qed.

(** *** The loop on malformed thoughts *)

(** C3 fails on the code: a thought whose first tool call is a string
    makes [act] raise [AttributeError] in the first iteration, and [run]
    does not return. *)
Lemma run_stops_on_malformed_thought :
  ~ run_completes json_dumps_ascii (fun _ => malformed_thought) 1 developer.
Proof.
  intros (a' & calls & Hrun & _). vm_compute in Hrun. discriminate Hrun.
Qed.

(** There the log has got the thought and nothing else: no
    "environment" and no "experience" entry. *)
Lemma run_on_malformed_thought_outcome (json_dumps : pyval -> string) :
  run json_dumps (fun _ => malformed_thought) 1 developer
  = (Raise (mkExn AttributeError "'str' object has no attribute 'get'"),
     set_memory (add_message (memory developer) "agent"
                   (json_dumps (PDict malformed_thought))) developer)
  /\ experiences (memory (snd (run json_dumps (fun _ => malformed_thought) 1 developer)))
     = [].
Proof. split; reflexivity. Qed.

Lemma run_well_formed_completes_witness :
  (forall i, (i < Z.to_nat 2)%nat -> well_formed_thought mismatched_thought = true)
  /\ run_completes json_dumps_ascii (fun _ => mismatched_thought) 2 developer.
Proof.
  assert (Hwf : forall i, (i < Z.to_nat 2)%nat -> well_formed_thought mismatched_thought = true)
    by (intros i _; reflexivity).
  split; [exact Hwf|].
  exact (run_well_formed_completes json_dumps_ascii (fun _ => mismatched_thought) 2 developer Hwf).
Defined.

End HandlerFacts.

(** ** More facts about the memory log *)

Module MemoryLogMore.
Import MemoryLog MemoryLogFacts.

Lemma length_pop0_snoc {A} (l : list A) (x : A) : length (pop0 (l ++ [x])) = length l.
Proof. rewrite pop0_drop, length_drop, length_app. simpl. lia. Qed.

(** The length after an append, from any state. *)
Lemma length_add_message (h : AIChatHistory) (role content : string) :
  length (messages (add_message h role content))
  = (if Z.of_nat (length (messages h)) + 1 >? max_messages h
     then length (messages h) else S (length (messages h))).
Proof.
  unfold add_message. rewrite length_app. simpl length.
  replace (Z.of_nat (length (messages h) + 1)) with (Z.of_nat (length (messages h)) + 1) by lia.
  destruct (Z.of_nat (length (messages h)) + 1 >? max_messages h); simpl messages.
  - apply length_pop0_snoc.
  - rewrite length_app. simpl. lia.
Qed.

(** The bound is an invariant of [add_message] from any state. *)
Lemma add_message_within h role content :
  Z.of_nat (length (messages h)) <= max_messages h ->
  Z.of_nat (length (messages (add_message h role content)))
  <= max_messages (add_message h role content).
Proof.
  intros Hle. rewrite length_add_message, add_message_capacity.
  destruct (Z.gtb_spec (Z.of_nat (length (messages h)) + 1) (max_messages h)); lia.
Qed.

(** X1. Whatever the state of the log, [add_message] evicts at most one
    entry: the length stays as it is when the append would exceed
    [max_messages] and grows by one otherwise, and [max_messages] is
    never changed.  So a log already longer than [max_messages] is not
    trimmed back, and a log within its capacity stays within it. *)
Theorem add_message_length (h : AIChatHistory) (role content : string) :
  length (messages (add_message h role content))
  = (if Z.of_nat (length (messages h)) + 1 >? max_messages h
     then length (messages h) else S (length (messages h)))
  /\ max_messages (add_message h role content) = max_messages h
  /\ (Z.of_nat (length (messages h)) <= max_messages h ->
      Z.of_nat (length (messages (add_message h role content))) <= max_messages h).
Proof.
  split; [apply length_add_message|]. split; [apply add_message_capacity|].
  intros Hle. rewrite <- (add_message_capacity h role content). by apply add_message_within.
Qed.

Lemma add_messages_within h calls :
  Z.of_nat (length (messages h)) <= max_messages h ->
  Z.of_nat (length (messages (add_messages h calls))) <= max_messages (add_messages h calls).
Proof.
  induction calls as [|c calls IH] using rev_ind; [done|].
  intros Hle. rewrite add_messages_snoc. by apply add_message_within, IH.
Qed.

(** X2. On a log whose [max_messages] is at least 1, the message just
    added is the one [get_context(1)] returns, whatever the log held and
    whether or not an entry was evicted. *)
Theorem get_context_newest (h : AIChatHistory) (role content : string) :
  1 <= max_messages h ->
  get_context (add_message h role content) 1 = [mkMessage role content].
Proof.
  intros Hcap.
  destruct (get_context_positive (add_message h role content) 1 ltac:(lia)) as [-> _].
  unfold add_message. rewrite length_app. simpl length.
  destruct (Z.gtb_spec (Z.of_nat (length (messages h) + 1)) (max_messages h)) as [Hgt|Hle];
    simpl messages.
  - destruct (messages h) as [|m0 rest] eqn:Hm; [simpl in Hgt; lia|].
    simpl pop0. rewrite length_app. simpl length.
    rewrite drop_app_length'; [done|lia].
  - rewrite length_app. simpl length. rewrite drop_app_length'; [done|lia].
Qed.

Lemma get_context_newest_witness :
  1 <= max_messages (add_messages (init 3) Samples.abcd_calls)
  /\ get_context (add_message (add_messages (init 3) Samples.abcd_calls) "agent" "E") 1
     = [mkMessage "agent" "E"].
Proof.
  assert (Hcap : 1 <= max_messages (add_messages (init 3) Samples.abcd_calls))
    by (vm_compute; discriminate).
  split; [exact Hcap|].
  exact (get_context_newest (add_messages (init 3) Samples.abcd_calls) "agent" "E" Hcap).
Defined.

(** X3. What [get_context] returns is always the log from some index
    on: from index [len - last_n] (or 0) for a positive [last_n], the
    whole log for 0, and for a negative [last_n] the log without its
    first [-last_n] entries: [get_context(-2)] drops the two oldest
    messages instead of returning two. *)
Theorem get_context_cases (h : AIChatHistory) (last_n : Z) :
  get_context h last_n
  = if 0 <? last_n then drop (length (messages h) - Z.to_nat last_n) (messages h)
    else drop (Z.to_nat (- last_n)) (messages h).
Proof.
  destruct (Z.ltb_spec 0 last_n) as [Hpos|Hle].
  - by destruct (get_context_positive h last_n Hpos).
  - unfold get_context, slice_from.
    destruct (Z.ltb_spec (- last_n) 0) as [?|_]; [lia|].
    destruct (Z.min_spec (- last_n) (Z.of_nat (length (messages h)))) as [[_ ->]|[Hge ->]];
      [done|].
    rewrite Nat2Z.id. by rewrite !drop_ge by lia.
Qed.

(** X4. How long an entry lives in a fresh log of capacity [c]: after
    the entry [x] come [post] further appends.  As long as these are
    fewer than [c] the log ends with [x] and all later entries, in
    order; once they are [c] or more, [x] and everything older is gone
    and the log holds later entries only. *)
Theorem entry_lifetime (c : Z) (pre post : list (string * string)) (x : string * string) :
  messages (add_messages (init c) (pre ++ x :: post))
  = if decide (length post < Z.to_nat c)%nat
    then drop (length pre + 1 + length post - Z.to_nat c) (entries pre)
         ++ mkMessage (fst x) (snd x) :: entries post
    else drop (length post - Z.to_nat c) (entries post).
Proof.
  rewrite add_messages_suffix.
  replace (entries (pre ++ x :: post))
    with (entries pre ++ mkMessage (fst x) (snd x) :: entries post)
    by (unfold entries; by rewrite map_app).
  rewrite length_app. simpl length.
  case_decide as Hlt.
  - replace (length pre + S (length post) - Z.to_nat c)%nat
      with (length pre + 1 + length post - Z.to_nat c)%nat by lia.
    rewrite drop_app_le; [done|]. rewrite length_entries. lia.
  - change (entries pre ++ mkMessage (fst x) (snd x) :: entries post)
      with (entries pre ++ [mkMessage (fst x) (snd x)] ++ entries post).
    rewrite app_assoc, drop_app_ge by (rewrite length_app, length_entries; simpl; lia).
    f_equal. rewrite length_app, length_entries. simpl. lia.
Qed.

End MemoryLogMore.

(** ** More facts about the dispatcher *)

Module DispatchMore.
Import MemoryLog Py Agent LoopParts DispatchFacts LoopFacts.

(** No supplied name in the entry: nothing is renamed. *)
Lemma rename_params_none (expected : gmap string string) (kwargs : pydict) :
  (forall k, k ∈ keys kwargs -> expected !! k = None) ->
  rename_params expected kwargs = [].
Proof.
  unfold rename_params, keys.
  induction kwargs as [|[k0 v0] kwargs IH] using rev_ind; [done|].
  intros Hnone. rewrite foldl_snoc. simpl.
  rewrite Hnone by (rewrite fmap_app; apply elem_of_app; right; by apply list_elem_of_singleton).
  simpl.
  apply IH. intros k Hk. apply Hnone. rewrite fmap_app. apply elem_of_app. by left.
Qed.

Section Generic.
Context {St : Type}.
Implicit Types (a : BaseAgent St) (f : handler St) (kwargs : pydict).

Lemma call_frame f (params : pyval) a : same_frame a (snd (call f params a)).
Proof.
  destruct params; try done.
  unfold call. destruct (bind_arguments f items); [|done].
  simpl. by destruct (h_body f a0 (self_state a)).
Qed.

(** X5. With a string as action name and a dict as parameters,
    [execute_action] never raises: whatever the name, the parameters and
    the handler do, it returns a text.  It leaves the memory log, the
    name and the action map of the agent as they are. *)
Theorem execute_action_total a (action : string) kwargs :
  exists (r : string) (a' : BaseAgent St),
    execute_action (PStr action) (PDict kwargs) a = (Ret r, a')
    /\ memory a' = memory a
    /\ action_map a' = action_map a
    /\ name a' = name a.
Proof.
  unfold execute_action, execute_action_in.
  destruct (action_map a !! action) as [f|]; [|by eexists _, _].
  pose proof (call_frame f (PDict kwargs) a) as (Hn1 & Ha1 & Hm1).
  destruct (call f (PDict kwargs) a) as [[r|te] a1]; [by eexists _, _|].
  simpl in Hn1, Ha1, Hm1.
  destruct (is_TypeError te); [|by eexists _, _].
  destruct (map_parameters_in_dict mappings action kwargs a1) as [o ->].
  set (a2 := record _ a1).
  destruct o as [[|kv mapped]|]; try (by eexists _, _).
  pose proof (call_frame f (PDict (kv :: mapped)) a2) as (Hn3 & Ha3 & Hm3).
  destruct (call f (PDict (kv :: mapped)) a2) as [[r|e] a3]; simpl in Hn3, Ha3, Hm3;
    eexists _, _; (split; [done|]); (split; [|split]); congruence.
Qed.

(** X6. Parameters that are not a dict, for an action of the action
    map: when the action has an entry in the table of [map_parameters],
    [execute_action] raises [AttributeError] (the [.items()] of
    [map_parameters] is outside every [try]); when it has none, the
    result is a text that starts with "Error executing action
    '<name>': ", followed by the interpreter's message.  The handler's
    body does not run and the agent's state is as before. *)
Theorem execute_action_not_a_dict a (action : string) f (params : pyval) :
  action_map a !! action = Some f ->
  is_dict params = false ->
  exists msg : string,
    execute_action (PStr action) params a
    = (match mappings !! action with
       | Some _ =>
           Raise (mkExn AttributeError
                    ("'" +:+ type_name params +:+ "' object has no attribute 'items'"))
       | None => Ret ("Error executing action " +:+ quoted action +:+ ": " +:+ msg)
       end,
       record (EvMapParameters action params) a).
Proof.
  intros Hf Hnd. unfold execute_action, execute_action_in. rewrite Hf.
  destruct params; try discriminate; simpl;
    unfold map_parameters_in; eexists; by destruct (mappings !! action).
Qed.

(** X7. When [map_parameters] returns a dict, the action has an entry
    in its table, the entry renames one name [k] to [k'], and the dict
    has exactly one item: [k'] with a value supplied under [k].  It
    never returns an empty dict. *)
Theorem map_parameters_shape a (action : string) (params : pyval)
    (mapped : pydict) (a' : BaseAgent St) :
  map_parameters action params a = (Ret (Some mapped), a') ->
  exists kwargs k k' v,
    params = PDict kwargs
    /\ mappings !! action = Some {[k := k']}
    /\ (k, v) ∈ kwargs
    /\ mapped = [(k', v)].
Proof.
  unfold map_parameters, map_parameters_in.
  destruct (mappings !! action) as [expected|] eqn:Hentry; [|discriminate].
  destruct params as [| | | | |kwargs]; try discriminate.
  destruct (mappings_singleton _ _ Hentry) as (k & k' & ->).
  destruct (rename_params_singleton k k' kwargs) as [->|(v & Hin & ->)]; [discriminate|].
  intros H. simplify_eq. by exists kwargs, k, k', v.
Qed.

(** A call with the one keyword [k] binds only the signature [(k)]. *)
Lemma bind_single_fails f (k : string) (v : pyval) :
  NoDup (h_params f) -> h_params f <> [k] ->
  exists e, bind_arguments f [(k, v)] = Raise e.
Proof.
  intros Hnd Hne. unfold bind_arguments, unexpected_keywords, missing_arguments, keys.
  simpl map. rewrite filter_cons. case_decide as Hk; [eexists; reflexivity|].
  rewrite filter_nil.
  destruct (h_params f) as [|p1 rest]; [by apply elem_of_nil in Hk|].
  apply NoDup_cons in Hnd as [Hp1 _].
  rewrite filter_cons. case_decide as H1; [eexists; reflexivity|].
  assert (p1 = k) as -> by (by apply list_elem_of_singleton in H1).
  destruct rest as [|p2 rest]; [done|].
  rewrite filter_cons. case_decide as H2; [eexists; reflexivity|].
  assert (p2 = k) as -> by (by apply list_elem_of_singleton in H2).
  exfalso. apply Hp1. by apply elem_of_cons; left.
Qed.

(** X8. The retry of [execute_action] can only help a handler whose
    parameters are exactly the one name the table of [map_parameters]
    renames to for that action.  For any other handler (no parameter,
    two or more, or one of another name), a call that fails to bind
    always ends in the "Error executing action" text, and the handler's
    body never runs: the table renames one name per action, so the
    second call gets a single keyword. *)
Theorem execute_action_no_rescue a (action : string) f kwargs (te : exn) :
  action_map a !! action = Some f ->
  bind_arguments f kwargs = Raise te ->
  NoDup (h_params f) ->
  (forall k k', mappings !! action = Some {[k := k']} -> h_params f <> [k']) ->
  exists (msg : string) (a' : BaseAgent St),
    execute_action (PStr action) (PDict kwargs) a
    = (Ret ("Error executing action " +:+ quoted action +:+ ": " +:+ msg), a')
    /\ self_state a' = self_state a.
Proof.
  intros Hf Hbind Hnd Hother. unfold execute_action, execute_action_in.
  rewrite Hf, (call_mismatch _ _ _ _ Hbind), (bind_arguments_TypeError _ _ _ Hbind).
  unfold map_parameters_in.
  destruct (mappings !! action) as [expected|] eqn:Hentry; [|by eexists _, _].
  destruct (mappings_singleton _ _ Hentry) as (k & k' & ->).
  destruct (rename_params_singleton k k' kwargs) as [->|(v & _ & ->)]; [by eexists _, _|].
  destruct (bind_single_fails f k' v Hnd (Hother k k' eq_refl)) as [e He].
  rewrite (call_mismatch _ _ _ _ He). by eexists _, _.
Qed.

(** X9. A call that fails to bind, for an action that has no entry in
    the table of [map_parameters] or whose entry names none of the
    supplied parameters: [execute_action] returns a text that starts
    with "Error executing action '<name>': "; the handler is called that
    once, [map_parameters] is called once, nothing is retried, the
    handler's body does not run, and the agent's state is as before. *)
Theorem execute_action_no_retry a (action : string) f kwargs (te : exn) :
  action_map a !! action = Some f ->
  bind_arguments f kwargs = Raise te ->
  (forall expected k, mappings !! action = Some expected ->
                      k ∈ keys kwargs -> expected !! k = None) ->
  exists msg : string,
    execute_action (PStr action) (PDict kwargs) a
    = (Ret ("Error executing action " +:+ quoted action +:+ ": " +:+ msg),
       record (EvMapParameters action (PDict kwargs))
         (record (EvCall (h_qualname f) kwargs) a)).
Proof.
  intros Hf Hbind Hnone. exists (exc_str te). unfold execute_action, execute_action_in.
  rewrite Hf, (call_mismatch _ _ _ _ Hbind), (bind_arguments_TypeError _ _ _ Hbind).
  unfold map_parameters_in.
  destruct (mappings !! action) as [expected|] eqn:Hentry; [|done].
  by rewrite (rename_params_none expected kwargs (fun k => Hnone expected k eq_refl)).
Qed.

(** X10. A call rescued by the renaming is as good as the call with the
    right names: when the supplied parameters fail to bind, their
    renaming binds and the handler returns on it, [execute_action]
    returns the handler's result and leaves the state the handler left,
    exactly as the dispatch of the renamed parameters does. *)
Theorem execute_action_rescued a (action : string) f kwargs (te : exn)
    (expected : gmap string string) (r : string) (st' : St) :
  action_map a !! action = Some f ->
  bind_arguments f kwargs = Raise te ->
  mappings !! action = Some expected ->
  rename_params expected kwargs <> [] ->
  matches_signature f (rename_params expected kwargs) ->
  h_body f (bound_args f (rename_params expected kwargs)) (self_state a) = (Ret r, st') ->
  let rescued := execute_action (PStr action) (PDict kwargs) a in
  let direct := execute_action (PStr action) (PDict (rename_params expected kwargs)) a in
  fst rescued = Ret r /\ fst direct = Ret r
  /\ self_state (snd rescued) = st' /\ self_state (snd direct) = st'
  /\ memory (snd rescued) = memory a /\ memory (snd direct) = memory a.
Proof.
  intros Hf Hbind Hentry Hne Hm Hbody rescued direct.
  assert (Hres : rescued
    = (Ret r, set_self_state st'
                (record (EvCall (h_qualname f) (rename_params expected kwargs))
                   (record (EvMapParameters action (PDict kwargs))
                      (record (EvCall (h_qualname f) kwargs) a))))).
  { subst rescued. unfold execute_action, execute_action_in.
    rewrite Hf, (call_mismatch _ _ _ _ Hbind), (bind_arguments_TypeError _ _ _ Hbind).
    unfold map_parameters_in. rewrite Hentry.
    destruct (rename_params expected kwargs) as [|kv mapped] eqn:Hmapped; [done|].
    rewrite (call_matching _ _ _ Hm). simpl. by rewrite Hbody. }
  assert (Hdir : direct
    = (Ret r, set_self_state st'
                (record (EvCall (h_qualname f) (rename_params expected kwargs)) a))).
  { subst direct. unfold execute_action, execute_action_in.
    by rewrite Hf, (call_matching _ _ _ Hm), Hbody. }
  rewrite Hres, Hdir. done.
Qed.

End Generic.
End DispatchMore.

(** ** More facts about the agent loop *)

Module LoopMore.
Import MemoryLog Py Agent LoopParts MemoryLogFacts DispatchFacts LoopFacts
       MemoryLogMore DispatchMore.

Section Generic.
Context {St : Type}.
Variable json_dumps : pyval -> string.
Implicit Types (a : BaseAgent St) (f : handler St) (generator : nat -> pydict).

(** X11. [act] dispatches the first tool call of a thought and no
    other: two thoughts whose lists of tool calls start with the same
    call give the same result and the same agent, whatever else the
    lists and the thoughts hold. *)
Theorem act_first_call_only (thought thought' : pydict) (first : pyval)
    (rest rest' : list pyval) a :
  dict_get thought "tool_calls" = Some (PList (first :: rest)) ->
  dict_get thought' "tool_calls" = Some (PList (first :: rest')) ->
  act thought a = act thought' a.
Proof. intros H H'. unfold act. by rewrite H, H'. Qed.

(** X12. An iteration on a thought without "tool_calls" key (the empty
    thought of a failed service call is one) dispatches nothing: it
    returns, the handlers' state and the trace are as before, and the
    log has got the thought, the text "No actionable instruction found
    in: " with the thought's content, and the experience made of both. *)
Theorem iteration_without_tool_calls generator (i : nat) a :
  dict_get (generator i) "tool_calls" = None ->
  let thought := generator i in
  let result := "No actionable instruction found in: "
                +:+ py_str (dict_get_default thought "content" (PStr "")) in
  iteration json_dumps generator i a
  = (Ret tt,
     set_memory
       (add_messages (memory a)
          [("agent", json_dumps (PDict thought));
           ("environment", "Action result: " +:+ result);
           ("experience",
            json_dumps (PDict [("thought", PDict thought); ("action", PStr result)]))])
       a).
Proof.
  intros Hnone thought result. subst thought result.
  unfold iteration, think, act, learn, bind, remember, ret. rewrite Hnone. reflexivity.
Qed.

(** *** Splitting a run *)

Lemma run_from_shift generator (n i j : nat) a :
  run_from json_dumps generator (i + j) n a
  = run_from json_dumps (shift i generator) j n a.
Proof.
  revert j a. induction n as [|n IH]; intros j a; [done|].
  simpl run_from. unfold bind.
  change (iteration json_dumps (shift i generator) j a)
    with (iteration json_dumps generator (i + j) a).
  destruct (iteration json_dumps generator (i + j) a) as [[[]|e] a1]; [|done].
  rewrite <- IH. by rewrite Nat.add_succ_r.
Qed.

Lemma run_from_app generator (n m i : nat) a :
  run_from json_dumps generator i (n + m) a
  = match run_from json_dumps generator i n a with
    | (Ret _, a1) => run_from json_dumps generator (i + n) m a1
    | (Raise e, a1) => (Raise e, a1)
    end.
Proof.
  revert i a. induction n as [|n IH]; intros i a.
  - simpl. by rewrite Nat.add_0_r.
  - simpl run_from. unfold bind.
    destruct (iteration json_dumps generator i a) as [[[]|e] a1]; [|done].
    rewrite IH. by rewrite Nat.add_succ_r.
Qed.

(** X13. Iterations compose: a run of [k1 + k2] iterations is a run of
    [k1] iterations followed, when that returns, by a run of [k2]
    iterations on the agent it left, with the generator's later
    thoughts; when the first part raises, the whole run raises the same
    exception from the same state. *)
Theorem run_split generator (k1 k2 : Z) a :
  0 <= k1 -> 0 <= k2 ->
  run json_dumps generator (k1 + k2) a
  = match run json_dumps generator k1 a with
    | (Ret _, a1) => run json_dumps (shift (Z.to_nat k1) generator) k2 a1
    | (Raise e, a1) => (Raise e, a1)
    end.
Proof.
  intros H1 H2. unfold run. rewrite Z2Nat.inj_add by done.
  rewrite run_from_app. simpl.
  destruct (run_from json_dumps generator 0 (Z.to_nat k1) a) as [[[]|e] a1]; [|done].
  rewrite <- run_from_shift. by rewrite Nat.add_0_r.
Qed.

(** *** The first thought that cannot be taken apart *)

Lemma act_extraction_error (thought : pydict) (e : exn) a :
  extraction_error thought = Some e -> act thought a = (Raise e, a).
Proof.
  unfold extraction_error, act, bind, lift.
  destruct (dict_get thought "tool_calls") as [calls|]; [|discriminate].
  destruct (getitem0 calls) as [first|e1]; [|by intros [= ->]].
  destruct (get_method first "function" (PDict [])) as [tool_call|e2]; [|by intros [= ->]].
  destruct (get_method tool_call "name" (PStr "")) as [nm|e3]; [|by intros [= ->]].
  destruct (get_method tool_call "arguments" (PDict [])) as [args|e4]; [|by intros [= ->]].
  discriminate.
Qed.

Lemma iteration_extraction_error generator (i : nat) (e : exn) a :
  extraction_error (generator i) = Some e ->
  iteration json_dumps generator i a
  = (Raise e, set_memory (add_message (memory a) "agent"
                            (json_dumps (PDict (generator i)))) a).
Proof.
  intros He. unfold iteration, think. unfold bind at 1. unfold bind at 1.
  unfold remember at 1. unfold ret at 1. unfold bind at 1.
  by rewrite (act_extraction_error _ _ _ He).
Qed.

(** X14. The loop stops at the first thought it cannot take apart: when
    the thoughts before iteration [j] are well formed and taking the
    first tool call of thought [j] apart raises [e], [run] raises [e];
    the iterations before [j] have appended their three entries each,
    iteration [j] has appended its thought only, and no later iteration
    has run. *)
Theorem run_stops_at_first_malformed generator (k : Z) (j : nat) (e : exn) a :
  (j < Z.to_nat k)%nat ->
  (forall i, (i < j)%nat -> well_formed_thought (generator i) = true) ->
  extraction_error (generator j) = Some e ->
  exists (a' : BaseAgent St) (calls : list (string * string)),
    run json_dumps generator k a = (Raise e, a')
    /\ memory a' = add_messages (memory a)
                     (calls ++ [("agent", json_dumps (PDict (generator j)))])
    /\ map fst calls = mjoin (replicate j iteration_roles).
Proof.
  intros Hj Hwf He. unfold run.
  replace (Z.to_nat k) with (j + S (Z.to_nat k - S j))%nat by lia.
  rewrite run_from_app.
  destruct (run_from_completes json_dumps generator j 0 a) as (a1 & calls & Hrun & Hmem & Hroles).
  { intros i Hi. apply Hwf. lia. }
  rewrite Hrun. simpl run_from. unfold bind at 1.
  rewrite (iteration_extraction_error _ _ _ _ He).
  eexists _, calls. split; [done|]. split; [|done].
  simpl memory. rewrite add_messages_app, <- Hmem. done.
Qed.

(** *** What a run keeps *)

Lemma appended_to_refl a : appended_to a a.
Proof. split; [done|]. split; [done|]. by exists []. Qed.

Lemma appended_to_trans a1 a2 a3 :
  appended_to a1 a2 -> appended_to a2 a3 -> appended_to a1 a3.
Proof.
  intros (Hn1 & Ha1 & c1 & Hm1) (Hn2 & Ha2 & c2 & Hm2).
  split; [congruence|]. split; [congruence|].
  exists (c1 ++ c2). by rewrite add_messages_app, <- Hm1.
Qed.

Lemma same_frame_appended a a' : same_frame a a' -> appended_to a a'.
Proof. intros (Hn & Ha & Hm). split; [done|]. split; [done|]. by exists []. Qed.

Lemma remember_appended (role content : string) a :
  appended_to a (snd (remember role content a)).
Proof. split; [done|]. split; [done|]. by exists [(role, content)]. Qed.

(** A dispatch, returning or raising, leaves name, action map and log. *)
Lemma execute_action_frame (action params : pyval) a :
  same_frame a (snd (execute_action action params a)).
Proof.
  unfold execute_action, execute_action_in.
  destruct action as [| | |act| |]; try done.
  destruct (action_map a !! act) as [f|]; [|done].
  pose proof (call_frame f params a) as (Hn1 & Ha1 & Hm1).
  destruct (call f params a) as [[r|te] a1]; [done|]. simpl in Hn1, Ha1, Hm1.
  destruct (is_TypeError te); [|done].
  assert (Hmp : exists o, map_parameters_in mappings act params a1
                          = (o, record (EvMapParameters act params) a1)).
  { unfold map_parameters_in. destruct (mappings !! act); [|by eexists].
    destruct params; try (by eexists). destruct (rename_params g items); by eexists. }
  destruct Hmp as [o ->]. set (a2 := record _ a1).
  destruct o as [[[|kv mapped]|]|e]; try done.
  pose proof (call_frame f (PDict (kv :: mapped)) a2) as (Hn3 & Ha3 & Hm3).
  destruct (call f (PDict (kv :: mapped)) a2) as [[r|e] a3]; simpl in Hn3, Ha3, Hm3;
    (split; [|split]); simpl; congruence.
Qed.

Lemma act_appended (thought : pydict) a : appended_to a (snd (act thought a)).
Proof.
  unfold act. unfold bind at 1.
  match goal with |- context [match ?m a with _ => _ end] => set (inner := m) end.
  assert (Hinner : same_frame a (snd (inner a))).
  { subst inner. destruct (dict_get thought "tool_calls") as [calls|]; [|done].
    unfold bind, lift.
    destruct (getitem0 calls) as [first|]; [|done].
    destruct (get_method first "function" (PDict [])) as [tool_call|]; [|done].
    destruct (get_method tool_call "name" (PStr "")) as [nm|]; [|done].
    destruct (get_method tool_call "arguments" (PDict [])) as [args|]; [|done].
    apply execute_action_frame. }
  destruct (inner a) as [[result|e] a1]; simpl in Hinner.
  - eapply appended_to_trans; [by apply same_frame_appended|].
    unfold bind, ret. simpl. apply remember_appended.
  - by apply same_frame_appended.
Qed.

Lemma iteration_appended generator (i : nat) a :
  appended_to a (snd (iteration json_dumps generator i a)).
Proof.
  unfold iteration, think. unfold bind at 1. unfold bind at 1.
  unfold remember at 1. unfold ret at 1.
  set (a1 := set_memory _ a).
  assert (H1 : appended_to a a1) by apply remember_appended.
  unfold bind at 1.
  pose proof (act_appended (generator i) a1) as H2.
  destruct (act (generator i) a1) as [[action|e] a2]; simpl in H2.
  - eapply appended_to_trans; [exact H1|]. eapply appended_to_trans; [exact H2|].
    apply remember_appended.
  - by eapply appended_to_trans.
Qed.

Lemma run_from_appended generator (n i : nat) a :
  appended_to a (snd (run_from json_dumps generator i n a)).
Proof.
  revert i a. induction n as [|n IH]; intros i a; [apply appended_to_refl|].
  simpl run_from. unfold bind.
  pose proof (iteration_appended generator i a) as H1.
  destruct (iteration json_dumps generator i a) as [[[]|e] a1]; simpl in H1; [|done].
  eapply appended_to_trans; [exact H1|apply IH].
Qed.

(** X15. Whether it returns or raises, [run] leaves the agent's name
    and action map as they are and changes the memory log through
    [add_message] only: [max_messages] is the same afterwards, and a log
    within its capacity before the run is within it after the run. *)
Theorem run_keeps_capacity generator (k : Z) a :
  Z.of_nat (length (messages (memory a))) <= max_messages (memory a) ->
  let a' := snd (run json_dumps generator k a) in
  name a' = name a
  /\ action_map a' = action_map a
  /\ max_messages (memory a') = max_messages (memory a)
  /\ Z.of_nat (length (messages (memory a'))) <= max_messages (memory a').
Proof.
  intros Hle a'.
  destruct (run_from_appended generator (Z.to_nat k) 0 a) as (Hn & Ha & calls & Hm).
  fold (run json_dumps generator k a) in Hn, Ha, Hm. fold a' in Hn, Ha, Hm.
  split; [done|]. split; [done|]. rewrite Hm. split.
  - apply add_messages_capacity.
  - by apply add_messages_within.
Qed.

End Generic.
End LoopMore.

(** ** The handlers of the developer, the tester and the researcher *)

Module HandlerMore.
Import MemoryLog Py Agent Developer Entrepreneur Samples PyDict LoopParts
       DispatchFacts LoopFacts DispatchMore LoopMore.

(** *** Store and lookup *)

Lemma dict_get_set {K V} `{EqDecision K} (d : list (K * V)) (k k' : K) (v : V) :
  dict_get (dict_set d k v) k' = if decide (k = k') then Some v else dict_get d k'.
Proof.
  induction d as [|[k0 v0] d IH]; simpl.
  - by case_decide.
  - destruct (decide (k0 = k)) as [->|Hne]; simpl.
    + by destruct (decide (k = k')).
    + destruct (decide (k0 = k')) as [->|Hne'].
      * by rewrite decide_False by done.
      * exact IH.
Qed.

Lemma dict_get_default_set {K V} `{EqDecision K} (d : list (K * V)) (k k' : K) (v dflt : V) :
  dict_get_default (dict_set d k v) k' dflt
  = if decide (k = k') then v else dict_get_default d k' dflt.
Proof. unfold dict_get_default. rewrite dict_get_set. by case_decide. Qed.

(** A dispatch whose keywords bind and whose handler returns. *)
Lemma dispatch_returns {St} (a : BaseAgent St) (action : string) (f : handler St)
    (kwargs : pydict) (r : string) (st' : St) :
  action_map a !! action = Some f ->
  matches_signature f kwargs ->
  h_body f (bound_args f kwargs) (self_state a) = (Ret r, st') ->
  execute_action (PStr action) (PDict kwargs) a
  = (Ret r, set_self_state st' (record (EvCall (h_qualname f) kwargs) a)).
Proof.
  intros Hf Hm Hbody. unfold execute_action, execute_action_in.
  by rewrite Hf, (call_matching _ _ _ Hm), Hbody.
Qed.

Section Services.
Variable generate_response : string -> list pyval -> string -> pydict.

Local Abbreviation dev_map := (DeveloperAgent.get_action_map generate_response).
Local Abbreviation test_map := (TesterAgent.get_action_map generate_response).
Local Abbreviation research_map := (ResearchAgent.get_action_map generate_response).

(** X16. What [write_code] stores, [review_code] finds: after the
    dispatch of [write_code] with a hashable feature name, the dispatch
    of [review_code] for that name returns "Code review for <name>: "
    with the content of the service's reply to a prompt that carries the
    code; but when the code written is empty (or any falsy value), it
    returns "No code found for feature: <name>." as if nothing had been
    written. *)
Theorem review_code_after_write_code (a : BaseAgent DeveloperState)
    (feature_name code : pyval) (k : pykey) :
  action_map a = dev_map ->
  key_of feature_name = Some k ->
  let a1 := snd (execute_action (PStr "write_code")
                   (PDict [("feature_name", feature_name); ("code", code)]) a) in
  let prompt := "Review the following code for " +:+ py_str feature_name +:+ ":"
                +:+ newline +:+ py_str code in
  let review := dict_get_default (generate_response prompt [] "") "content" (PStr "") in
  fst (execute_action (PStr "review_code") (PDict [("feature_name", feature_name)]) a1)
  = Ret (if truthy code
         then "Code review for " +:+ py_str feature_name +:+ ": " +:+ py_str review
         else "No code found for feature: " +:+ py_str feature_name +:+ ".").
Proof.
  intros Hmap Hk a1 prompt review.
  assert (Hw : action_map a !! "write_code" = Some write_code) by (by rewrite Hmap).
  assert (Hmw : matches_signature write_code [("feature_name", feature_name); ("code", code)])
    by by_decision.
  assert (Ha1 : a1 = set_self_state (mkDeveloper (dict_set (codebase (self_state a)) k code))
                       (record (EvCall "DeveloperAgent.write_code"
                                  [("feature_name", feature_name); ("code", code)]) a)).
  { subst a1.
    by rewrite (dispatch_returns a "write_code" write_code _
                  ("Code written for " +:+ py_str feature_name +:+ ".")
                  (mkDeveloper (dict_set (codebase (self_state a)) k code)) Hw Hmw)
      by (simpl; by rewrite Hk). }
  assert (Hr : action_map a1 !! "review_code"
               = Some (DeveloperAgent.review_code generate_response))
    by (by rewrite Ha1; simpl; rewrite Hmap).
  assert (Hmr : matches_signature (DeveloperAgent.review_code generate_response)
                  [("feature_name", feature_name)]) by by_decision.
  assert (Hbody : h_body (DeveloperAgent.review_code generate_response)
                    (bound_args (DeveloperAgent.review_code generate_response)
                       [("feature_name", feature_name)]) (self_state a1)
                  = (Ret (if truthy code
                          then "Code review for " +:+ py_str feature_name +:+ ": "
                               +:+ py_str review
                          else "No code found for feature: " +:+ py_str feature_name +:+ "."),
                     self_state a1)).
  { rewrite Ha1. simpl. unfold get_key. rewrite Hk, dict_get_default_set, decide_True by done.
    subst review prompt. by destruct (truthy code). }
  by rewrite (dispatch_returns _ _ _ _ _ _ Hr Hmr Hbody).
Qed.

(** X17. A [write_code] is seen under its own key and under no other:
    after the dispatch, the codebase maps the feature name (as a key:
    [True] and [1] are one key) to the code written, replacing what was
    there, and every other key to what it held before. *)
Theorem write_code_lookup (a : BaseAgent DeveloperState)
    (feature_name code : pyval) (k k' : pykey) :
  action_map a !! "write_code" = Some write_code ->
  key_of feature_name = Some k ->
  let a1 := snd (execute_action (PStr "write_code")
                   (PDict [("feature_name", feature_name); ("code", code)]) a) in
  dict_get (codebase (self_state a1)) k'
  = if decide (k = k') then Some code else dict_get (codebase (self_state a)) k'.
Proof.
  intros Hw Hk a1.
  assert (Hmw : matches_signature write_code [("feature_name", feature_name); ("code", code)])
    by by_decision.
  subst a1.
  rewrite (dispatch_returns a "write_code" write_code _
             ("Code written for " +:+ py_str feature_name +:+ ".")
             (mkDeveloper (dict_set (codebase (self_state a)) k code)) Hw Hmw)
    by (simpl; by rewrite Hk).
  simpl. apply dict_get_set.
Qed.

(** X18. [integrate_ai_model] takes any value as model name, also an
    unhashable one, since it stores under a string it builds, and any
    integration code.  After it, [review_code] for the name
    "ai_integration_<model name>" reviews the integration code when that
    is truthy, and returns "No code found for feature:
    ai_integration_<model name>." when it is empty or otherwise falsy. *)
Theorem review_code_after_integrate (a : BaseAgent DeveloperState)
    (model_name integration_code : pyval) :
  action_map a = dev_map ->
  let stored_as := "ai_integration_" +:+ py_str model_name in
  let r1 := execute_action (PStr "integrate_ai_model")
              (PDict [("model_name", model_name); ("integration_code", integration_code)]) a in
  let prompt := "Review the following code for " +:+ stored_as +:+ ":"
                +:+ newline +:+ py_str integration_code in
  let review := dict_get_default (generate_response prompt [] "") "content" (PStr "") in
  fst r1 = Ret ("AI model " +:+ py_str model_name +:+ " integrated successfully.")
  /\ fst (execute_action (PStr "review_code") (PDict [("feature_name", PStr stored_as)]) (snd r1))
     = Ret (if truthy integration_code
            then "Code review for " +:+ stored_as +:+ ": " +:+ py_str review
            else "No code found for feature: " +:+ stored_as +:+ ".").
Proof.
  intros Hmap stored_as r1 prompt review.
  assert (Hi : action_map a !! "integrate_ai_model"
               = Some DeveloperAgent.integrate_ai_model) by (by rewrite Hmap).
  assert (Hmi : matches_signature DeveloperAgent.integrate_ai_model
                  [("model_name", model_name); ("integration_code", integration_code)])
    by by_decision.
  assert (Hr1 : r1 = (Ret ("AI model " +:+ py_str model_name +:+ " integrated successfully."),
                      set_self_state
                        (mkDeveloper (dict_set (codebase (self_state a)) (KStr stored_as)
                                        integration_code))
                        (record (EvCall "DeveloperAgent.integrate_ai_model"
                                   [("model_name", model_name);
                                    ("integration_code", integration_code)]) a))).
  { subst r1. by rewrite (dispatch_returns _ _ _ _ _ _ Hi Hmi eq_refl). }
  rewrite Hr1. split; [done|].
  assert (Hmr : matches_signature (DeveloperAgent.review_code generate_response)
                  [("feature_name", PStr stored_as)]) by by_decision.
  cbn [snd]. set (a1 := set_self_state _ _).
  assert (Hr : action_map a1 !! "review_code"
               = Some (DeveloperAgent.review_code generate_response))
    by (by subst a1; simpl; rewrite Hmap).
  assert (Hbody : h_body (DeveloperAgent.review_code generate_response)
                    (bound_args (DeveloperAgent.review_code generate_response)
                       [("feature_name", PStr stored_as)]) (self_state a1)
                  = (Ret (if truthy integration_code
                          then "Code review for " +:+ stored_as +:+ ": " +:+ py_str review
                          else "No code found for feature: " +:+ stored_as +:+ "."),
                     self_state a1)).
  { subst a1. simpl. unfold get_key. simpl key_of.
    rewrite dict_get_default_set, decide_True by done.
    subst review prompt. by destruct (truthy integration_code). }
  by rewrite (dispatch_returns _ _ _ _ _ _ Hr Hmr Hbody).
Qed.

(** X19. [run_tests] reads the module global [developer]: as long as
    the name is not bound, every dispatch of [run_tests] with its
    parameter name ends in the text "Unexpected error executing action
    'run_tests': name 'developer' is not defined", whatever the feature
    name, and changes nothing but the trace. *)
Theorem run_tests_without_developer (a : BaseAgent TesterAgent.TesterState)
    (feature_name : pyval) :
  action_map a = test_map ->
  TesterAgent.developer_global (self_state a) = None ->
  execute_action (PStr "run_tests") (PDict [("feature_name", feature_name)]) a
  = (Ret "Unexpected error executing action 'run_tests': name 'developer' is not defined",
     record (EvCall "TesterAgent.run_tests" [("feature_name", feature_name)]) a).
Proof.
  intros Hmap Hdev.
  assert (Hf : action_map a !! "run_tests" = Some (TesterAgent.run_tests generate_response))
    by (by rewrite Hmap).
  assert (Hm : matches_signature (TesterAgent.run_tests generate_response)
                 [("feature_name", feature_name)]) by by_decision.
  unfold execute_action, execute_action_in.
  rewrite Hf, (call_matching _ _ _ Hm). simpl. by rewrite Hdev.
Qed.

(** X20. [run_tests] and [analyze_test_results] together: for a feature
    the developer has code for, [run_tests] returns "Tests for <name>
    completed successfully." and stores the content of the service's
    reply; [analyze_test_results] then returns "Test results for
    '<name>': " with a second reply's content, but when the stored
    content is empty (as after a failed service call), it returns "No
    test results found for feature: <name>." although the tests have
    just been reported as completed. *)
Theorem analyze_after_run_tests (a : BaseAgent TesterAgent.TesterState)
    (dev : DeveloperState) (feature_name : pyval) (k : pykey) :
  action_map a = test_map ->
  TesterAgent.developer_global (self_state a) = Some dev ->
  key_of feature_name = Some k ->
  truthy (dict_get_default (codebase dev) k (PStr "")) = true ->
  let code := dict_get_default (codebase dev) k (PStr "") in
  let stored :=
    dict_get_default
      (generate_response
         ("Run tests for the feature '" +:+ py_str feature_name
          +:+ "' with the following code:" +:+ newline +:+ py_str code) [] "")
      "content" (PStr "") in
  let analysis :=
    dict_get_default
      (generate_response
         ("Analyze the following test results for " +:+ py_str feature_name +:+ ":"
          +:+ newline +:+ py_str stored) [] "")
      "content" (PStr "") in
  let r1 := execute_action (PStr "run_tests") (PDict [("feature_name", feature_name)]) a in
  fst r1 = Ret ("Tests for " +:+ py_str feature_name +:+ " completed successfully.")
  /\ fst (execute_action (PStr "analyze_test_results")
            (PDict [("feature_name", feature_name)]) (snd r1))
     = Ret (if truthy stored
            then "Test results for '" +:+ py_str feature_name +:+ "': " +:+ py_str analysis
            else "No test results found for feature: " +:+ py_str feature_name +:+ ".").
Proof.
  intros Hmap Hdev Hk Hcode code stored analysis r1.
  assert (Hm1 : matches_signature (TesterAgent.run_tests generate_response)
                  [("feature_name", feature_name)]) by by_decision.
  assert (Hm2 : matches_signature (TesterAgent.analyze_test_results generate_response)
                  [("feature_name", feature_name)]) by by_decision.
  assert (Hr1 : r1 = (Ret ("Tests for " +:+ py_str feature_name +:+ " completed successfully."),
                      set_self_state
                        (TesterAgent.mkTester (Some dev)
                           (dict_set (TesterAgent.test_results (self_state a)) k stored))
                        (record (EvCall "TesterAgent.run_tests"
                                   [("feature_name", feature_name)]) a))).
  { assert (Hf : action_map a !! "run_tests" = Some (TesterAgent.run_tests generate_response))
      by (by rewrite Hmap).
    subst r1. apply (dispatch_returns _ _ _ _ _ _ Hf Hm1).
    simpl. rewrite Hdev. unfold get_key, set_key. rewrite Hk.
    subst stored code. by rewrite Hcode. }
  rewrite Hr1. split; [done|].
  cbn [snd]. set (a1 := set_self_state _ _).
  assert (Hf2 : action_map a1 !! "analyze_test_results"
                = Some (TesterAgent.analyze_test_results generate_response))
    by (by subst a1; simpl; rewrite Hmap).
  assert (Hbody : h_body (TesterAgent.analyze_test_results generate_response)
                    (bound_args (TesterAgent.analyze_test_results generate_response)
                       [("feature_name", feature_name)]) (self_state a1)
                  = (Ret (if truthy stored
                          then "Test results for '" +:+ py_str feature_name +:+ "': "
                               +:+ py_str analysis
                          else "No test results found for feature: "
                               +:+ py_str feature_name +:+ "."),
                     self_state a1)).
  { subst a1. simpl. unfold get_key. rewrite Hk, dict_get_default_set, decide_True by done.
    subst analysis. by destruct (truthy stored). }
  by rewrite (dispatch_returns _ _ _ _ _ _ Hf2 Hm2 Hbody).
Qed.

(** X21. The same for the researcher: [conduct_research] always reports
    "Research on '<topic>' completed successfully." for a hashable
    topic, and [analyze_data] afterwards returns the analysis of what
    was stored, or "No research data found for topic: <topic>." when
    the service's reply had no content. *)
Theorem analyze_data_after_conduct_research (a : BaseAgent ResearchAgent.ResearchState)
    (topic : pyval) (k : pykey) :
  action_map a = research_map ->
  key_of topic = Some k ->
  let stored :=
    dict_get_default
      (generate_response
         ("Conduct comprehensive research on the topic: " +:+ py_str topic +:+ ".") [] "")
      "content" (PStr "") in
  let analysis :=
    dict_get_default
      (generate_response
         ("Analyze the following research data on " +:+ py_str topic +:+ ":"
          +:+ newline +:+ py_str stored) [] "")
      "content" (PStr "") in
  let r1 := execute_action (PStr "conduct_research") (PDict [("topic", topic)]) a in
  fst r1 = Ret ("Research on '" +:+ py_str topic +:+ "' completed successfully.")
  /\ fst (execute_action (PStr "analyze_data") (PDict [("topic", topic)]) (snd r1))
     = Ret (if truthy stored
            then "Data analysis for '" +:+ py_str topic +:+ "': " +:+ py_str analysis
            else "No research data found for topic: " +:+ py_str topic +:+ ".").
Proof.
  intros Hmap Hk stored analysis r1.
  assert (Hm1 : matches_signature (ResearchAgent.conduct_research generate_response)
                  [("topic", topic)]) by by_decision.
  assert (Hm2 : matches_signature (ResearchAgent.analyze_data generate_response)
                  [("topic", topic)]) by by_decision.
  assert (Hr1 : r1 = (Ret ("Research on '" +:+ py_str topic +:+ "' completed successfully."),
                      set_self_state
                        (ResearchAgent.mkResearch
                           (dict_set (ResearchAgent.research_data (self_state a)) k stored))
                        (record (EvCall "ResearchAgent.conduct_research" [("topic", topic)]) a))).
  { assert (Hf : action_map a !! "conduct_research"
                 = Some (ResearchAgent.conduct_research generate_response))
      by (by rewrite Hmap).
    subst r1. apply (dispatch_returns _ _ _ _ _ _ Hf Hm1).
    simpl. unfold set_key. by rewrite Hk. }
  rewrite Hr1. split; [done|].
  cbn [snd]. set (a1 := set_self_state _ _).
  assert (Hf2 : action_map a1 !! "analyze_data"
                = Some (ResearchAgent.analyze_data generate_response))
    by (by subst a1; simpl; rewrite Hmap).
  assert (Hbody : h_body (ResearchAgent.analyze_data generate_response)
                    (bound_args (ResearchAgent.analyze_data generate_response)
                       [("topic", topic)]) (self_state a1)
                  = (Ret (if truthy stored
                          then "Data analysis for '" +:+ py_str topic +:+ "': "
                               +:+ py_str analysis
                          else "No research data found for topic: " +:+ py_str topic +:+ "."),
                     self_state a1)).
  { subst a1. simpl. unfold get_key. rewrite Hk, dict_get_default_set, decide_True by done.
    subst analysis. by destruct (truthy stored). }
  by rewrite (dispatch_returns _ _ _ _ _ _ Hf2 Hm2 Hbody).
Qed.

End Services.
End HandlerMore.

(** ** The facts above at sample inputs *)

Module MoreWitnesses.
Import MemoryLog Py Agent Developer Entrepreneur Samples PyDict LoopParts MoreSamples
       DispatchFacts LoopFacts DispatchMore LoopMore HandlerMore.

Lemma execute_action_not_a_dict_witness :
  is_dict (PStr "FinGenius") = false
  /\ execute_action (PStr "conduct_market_research") (PStr "FinGenius") entrepreneur
     = (Raise (mkExn AttributeError "'str' object has no attribute 'items'"),
        record (EvMapParameters "conduct_market_research" (PStr "FinGenius")) entrepreneur)
  /\ (exists msg : string,
        execute_action (PStr "write_code") (PList []) developer
        = (Ret ("Error executing action " +:+ quoted "write_code" +:+ ": " +:+ msg),
           record (EvMapParameters "write_code" (PList [])) developer)).
Proof.
  split; [reflexivity|].
  destruct (execute_action_not_a_dict entrepreneur "conduct_market_research"
              conduct_market_research (PStr "FinGenius") eq_refl eq_refl) as [msg Hraise].
  split; [exact Hraise|].
  exact (execute_action_not_a_dict developer "write_code" write_code (PList [])
           eq_refl eq_refl).
Defined.

Lemma map_parameters_shape_witness :
  exists kwargs k k' v,
    PDict [("company_name", PStr "FinGenius"); ("extra", PInt 1)] = PDict kwargs
    /\ mappings !! "conduct_market_research" = Some {[k := k']}
    /\ (k, v) ∈ kwargs
    /\ [("business_idea", PStr "FinGenius")] = [(k', v)].
Proof.
  exact (map_parameters_shape entrepreneur "conduct_market_research"
           (PDict [("company_name", PStr "FinGenius"); ("extra", PInt 1)])
           [("business_idea", PStr "FinGenius")]
           (record (EvMapParameters "conduct_market_research"
                      (PDict [("company_name", PStr "FinGenius"); ("extra", PInt 1)]))
              entrepreneur)
           eq_refl).
Defined.

Lemma execute_action_no_rescue_witness :
  exists (msg : string) (a' : BaseAgent ResearchAgent.ResearchState),
    execute_action (PStr "report_findings")
      (PDict [("topic", PStr "t"); ("message", PStr "m")]) researcher
    = (Ret ("Error executing action " +:+ quoted "report_findings" +:+ ": " +:+ msg), a')
    /\ self_state a' = self_state researcher.
Proof.
  assert (Hnd : NoDup (h_params (ResearchAgent.report_findings))) by by_decision.
  assert (Hother : forall k k' : string,
             mappings !! "report_findings" = Some {[k := k']} ->
             h_params ResearchAgent.report_findings <> [k']) by (intros k k' _; discriminate).
  exact (execute_action_no_rescue researcher "report_findings" ResearchAgent.report_findings
           [("topic", PStr "t"); ("message", PStr "m")]
           (mkExn TypeError
              "ResearchAgent.report_findings() got an unexpected keyword argument 'message'")
           eq_refl eq_refl Hnd Hother).
Defined.

Lemma review_code_entry :
  mappings !! "review_code" = Some {["existing_code" := "feature_name"]}.
Proof. reflexivity. Qed.

Lemma execute_action_no_retry_witness :
  exists msg : string,
    execute_action (PStr "review_code") (PDict [("feature", PStr "login")]) developer_agent
    = (Ret ("Error executing action " +:+ quoted "review_code" +:+ ": " +:+ msg),
       record (EvMapParameters "review_code" (PDict [("feature", PStr "login")]))
         (record (EvCall "DeveloperAgent.review_code" [("feature", PStr "login")])
            developer_agent)).
Proof.
  assert (Hnone : forall expected k,
             mappings !! "review_code" = Some expected ->
             k ∈ keys [("feature", PStr "login")] -> expected !! k = None).
  { intros expected k He Hk. rewrite review_code_entry in He. injection He as <-.
    apply list_elem_of_singleton in Hk. by subst k. }
  exact (execute_action_no_retry developer_agent "review_code"
           (DeveloperAgent.review_code (Service.constant "looks fine"))
           [("feature", PStr "login")]
           (mkExn TypeError
              "DeveloperAgent.review_code() got an unexpected keyword argument 'feature'")
           eq_refl eq_refl Hnone).
Defined.

Lemma execute_action_rescued_witness :
  fst (execute_action (PStr "analyze_data") (PDict [("research_topic", PStr "t")]) researcher)
  = Ret "No research data found for topic: t."
  /\ fst (execute_action (PStr "analyze_data") (PDict [("topic", PStr "t")]) researcher)
     = Ret "No research data found for topic: t.".
Proof.
  assert (Hne : rename_params {["research_topic" := "topic"]} [("research_topic", PStr "t")]
                <> []) by (vm_compute; discriminate).
  assert (Hm : matches_signature (ResearchAgent.analyze_data Service.failing)
                 (rename_params {["research_topic" := "topic"]}
                    [("research_topic", PStr "t")])) by by_decision.
  destruct (execute_action_rescued researcher "analyze_data"
              (ResearchAgent.analyze_data Service.failing)
              [("research_topic", PStr "t")]
              (mkExn TypeError
                 "ResearchAgent.analyze_data() got an unexpected keyword argument 'research_topic'")
              {["research_topic" := "topic"]}
              "No research data found for topic: t." (ResearchAgent.mkResearch [])
              eq_refl eq_refl eq_refl Hne Hm eq_refl) as (H1 & H2 & _).
  split; [exact H1 | exact H2].
Defined.

Lemma act_first_call_only_witness :
  act two_calls_thought developer_agent = act one_call_thought developer_agent.
Proof.
  exact (act_first_call_only two_calls_thought one_call_thought first_call
           [PStr "ignored"] [] developer_agent eq_refl eq_refl).
Defined.

Lemma iteration_without_tool_calls_witness :
  dict_get (Service.failing "" [] "") "tool_calls" = None
  /\ iteration json_dumps_ascii (fun _ => Service.failing "" [] "") 0 developer_agent
     = (Ret tt,
        set_memory
          (add_messages (memory developer_agent)
             [("agent", json_dumps_ascii (PDict []));
              ("environment", "Action result: No actionable instruction found in: ");
              ("experience",
               json_dumps_ascii
                 (PDict [("thought", PDict []);
                         ("action", PStr "No actionable instruction found in: ")]))])
          developer_agent).
Proof.
  split; [reflexivity|].
  exact (iteration_without_tool_calls json_dumps_ascii (fun _ => Service.failing "" [] "") 0
           developer_agent eq_refl).
Defined.

Lemma run_split_witness :
  0 <= 1
  /\ run json_dumps_ascii (fun _ => mismatched_thought) (1 + 1) developer
     = match run json_dumps_ascii (fun _ => mismatched_thought) 1 developer with
       | (Ret _, a1) =>
           run json_dumps_ascii (shift (Z.to_nat 1) (fun _ => mismatched_thought)) 1 a1
       | (Raise e, a1) => (Raise e, a1)
       end.
Proof.
  assert (H1 : 0 <= 1) by lia.
  split; [exact H1|].
  exact (run_split json_dumps_ascii (fun _ => mismatched_thought) 1 1 developer H1 H1).
Defined.

Lemma run_stops_at_first_malformed_witness :
  extraction_error (second_thought_malformed 1)
  = Some (mkExn AttributeError "'str' object has no attribute 'get'")
  /\ exists (a' : BaseAgent DeveloperState) (calls : list (string * string)),
       run json_dumps_ascii second_thought_malformed 3 developer
       = (Raise (mkExn AttributeError "'str' object has no attribute 'get'"), a')
       /\ memory a' = add_messages (memory developer)
                        (calls ++ [("agent",
                                    json_dumps_ascii (PDict (second_thought_malformed 1)))])
       /\ map fst calls = mjoin (replicate 1 iteration_roles).
Proof.
  assert (Hj : (1 < Z.to_nat 3)%nat) by (vm_compute; lia).
  assert (Hwf : forall i, (i < 1)%nat -> well_formed_thought (second_thought_malformed i) = true).
  { intros i Hi. assert (i = 0%nat) as -> by lia. reflexivity. }
  split; [reflexivity|].
  exact (run_stops_at_first_malformed json_dumps_ascii second_thought_malformed 3 1
           (mkExn AttributeError "'str' object has no attribute 'get'") developer
           Hj Hwf eq_refl).
Defined.

Lemma run_keeps_capacity_witness :
  Z.of_nat (length (messages (memory developer))) <= max_messages (memory developer)
  /\ Z.of_nat (length (messages (memory
        (snd (run json_dumps_ascii (fun _ => malformed_thought) 2 developer)))))
     <= max_messages (memory
          (snd (run json_dumps_ascii (fun _ => malformed_thought) 2 developer))).
Proof.
  assert (Hle : Z.of_nat (length (messages (memory developer))) <= max_messages (memory developer))
    by (vm_compute; discriminate).
  split; [exact Hle|].
  exact (proj2 (proj2 (proj2
           (run_keeps_capacity json_dumps_ascii (fun _ => malformed_thought) 2 developer Hle)))).
Defined.

Lemma review_code_after_write_code_witness :
  fst (execute_action (PStr "review_code") (PDict [("feature_name", PStr "login")])
         (snd (execute_action (PStr "write_code")
                 (PDict [("feature_name", PStr "login"); ("code", PStr "pass")])
                 developer_agent)))
  = Ret "Code review for login: looks fine".
Proof.
  exact (review_code_after_write_code (Service.constant "looks fine") developer_agent
           (PStr "login") (PStr "pass") (KStr "login") eq_refl eq_refl).
Defined.

Lemma write_code_lookup_witness :
  dict_get (codebase (self_state
     (snd (execute_action (PStr "write_code")
             (PDict [("feature_name", PBool true); ("code", PStr "pass")])
             developer_agent)))) (KInt 1)
  = Some (PStr "pass").
Proof.
  exact (write_code_lookup developer_agent (PBool true) (PStr "pass") (KInt 1) (KInt 1)
           eq_refl eq_refl).
Defined.

Lemma review_code_after_integrate_witness :
  (fst (execute_action (PStr "integrate_ai_model")
          (PDict [("model_name", PList []); ("integration_code", PStr "import m")])
          developer_agent)
   = Ret "AI model [] integrated successfully."
   /\ fst (execute_action (PStr "review_code")
             (PDict [("feature_name", PStr "ai_integration_[]")])
             (snd (execute_action (PStr "integrate_ai_model")
                     (PDict [("model_name", PList []); ("integration_code", PStr "import m")])
                     developer_agent)))
      = Ret "Code review for ai_integration_[]: looks fine")
  /\ fst (execute_action (PStr "review_code")
            (PDict [("feature_name", PStr "ai_integration_m")])
            (snd (execute_action (PStr "integrate_ai_model")
                    (PDict [("model_name", PStr "m"); ("integration_code", PStr "")])
                    developer_agent)))
     = Ret "No code found for feature: ai_integration_m.".
Proof.
  split.
  - exact (review_code_after_integrate (Service.constant "looks fine") developer_agent
             (PList []) (PStr "import m") eq_refl).
  - exact (proj2 (review_code_after_integrate (Service.constant "looks fine") developer_agent
                    (PStr "m") (PStr "") eq_refl)).
Defined.

Lemma run_tests_without_developer_witness :
  TesterAgent.developer_global (self_state tester_alone) = None
  /\ execute_action (PStr "run_tests") (PDict [("feature_name", PStr "login")]) tester_alone
     = (Ret "Unexpected error executing action 'run_tests': name 'developer' is not defined",
        record (EvCall "TesterAgent.run_tests" [("feature_name", PStr "login")]) tester_alone).
Proof.
  split; [reflexivity|].
  exact (run_tests_without_developer Service.failing tester_alone (PStr "login")
           eq_refl eq_refl).
Defined.

Lemma analyze_after_run_tests_witness :
  fst (execute_action (PStr "run_tests") (PDict [("feature_name", PStr "login")]) tester_agent)
  = Ret "Tests for login completed successfully."
  /\ fst (execute_action (PStr "analyze_test_results")
            (PDict [("feature_name", PStr "login")])
            (snd (execute_action (PStr "run_tests")
                    (PDict [("feature_name", PStr "login")]) tester_agent)))
     = Ret "No test results found for feature: login.".
Proof.
  exact (analyze_after_run_tests Service.failing tester_agent
           (mkDeveloper [(KStr "login", PStr "pass")]) (PStr "login") (KStr "login")
           eq_refl eq_refl eq_refl eq_refl).
Defined.

Lemma analyze_data_after_conduct_research_witness :
  fst (execute_action (PStr "conduct_research") (PDict [("topic", PStr "tax")]) researcher)
  = Ret "Research on 'tax' completed successfully."
  /\ fst (execute_action (PStr "analyze_data") (PDict [("topic", PStr "tax")])
            (snd (execute_action (PStr "conduct_research")
                    (PDict [("topic", PStr "tax")]) researcher)))
     = Ret "No research data found for topic: tax.".
Proof.
  exact (analyze_data_after_conduct_research Service.failing researcher
           (PStr "tax") (KStr "tax") eq_refl eq_refl).
Defined.

End MoreWitnesses.
